(** * LDAP client: bind family, RootDSE accessor and the DirSync driver

    A shallow embedding of [bind.go], of the RootDSE accessor and of
    [SearchWithDirSync], with the properties the specification states
    about them.

    Conventions of the embedding:
    - a Go [string] is a [string], a [[]byte] is a [list byte]; a nil
      slice and an empty slice are both the empty list, except where a
      result is documented as an [option];
    - a pointer that may be nil is an [option], and so are the elements
      of a slice of entries; the elements of a slice of controls are
      taken to be non-nil;
    - an [interface{}] value is a small tagged union;
    - a run-time panic (failed type assertion, nil dereference) is the
      outcome [Panic] of the [Go] monad;
    - the connection is threaded through every call as an explicit
      state. *)

From Stdlib Require Import ZArith String List Lia Bool.
From Stdlib.Strings Require Import Byte.
From stdpp Require Import base option list strings gmap.

Local Open Scope Z_scope.

(** ** Outcomes of Go code that may panic *)

Inductive Go (A : Type) : Type :=
| Ret (a : A)
| Panic.

Arguments Ret {A} a.
Arguments Panic {A}.

Definition go_bind {A B : Type} (m : Go A) (k : A -> Go B) : Go B :=
  match m with
  | Ret a => k a
  | Panic => Panic
  end.

Notation "'do*' x <- m ; k" := (go_bind m (fun x => k))
  (at level 10, x pattern, m at level 100, k at level 200).

#[global] Instance byte_eq_decision : EqDecision byte := Byte.byte_eq_dec.

(** Fixed-width conversions, written out. *)
Definition uint8 (n : Z) : Z := n mod 256.
Definition wrap_int64 (n : Z) : Z := (n + 2 ^ 63) mod 2 ^ 64 - 2 ^ 63.

(** ** The BER packet tree (package [ber], an external collaborator)

    Only the fields the client reads or writes are kept. [Value] is the
    decoded [interface{}]: an [int] when the packet was built from a Go
    constant, an [int64] when it was decoded from the wire. *)

Inductive BerClass : Type :=
| ClassUniversal | ClassApplication | ClassContext | ClassPrivate.

Inductive BerType : Type :=
| TypePrimitive | TypeConstructed.

Inductive BerValue : Type :=
| VNil
| VInt (n : Z)
| VInt64 (n : Z)
| VString (s : string)
| VBool (b : bool).

#[local] Set Warnings "-register-all".
Inductive Packet : Type := mkPacket {
  ClassType : BerClass;
  TagType : BerType;
  Tag : Z;
  Value : BerValue;
  Data : list byte;
  Children : list (option Packet);
  Description : string
}.

#[global] Instance BerClass_eq_dec : EqDecision BerClass.
Proof. solve_decision. Defined.
#[global] Instance BerType_eq_dec : EqDecision BerType.
Proof. solve_decision. Defined.

Definition TagInteger : Z := 2.
Definition TagOctetString : Z := 4.
Definition TagSequence : Z := 16.

(** The wire encoding itself (identifier and length octets, integer
    contents) belongs to the codec; the client never looks inside it. *)
Class BerCodec : Type := {
  Bytes : Packet -> list byte;
  encodeInteger : Z -> list byte
}.

Section Ber.
Context `{BerCodec}.

(** [ber.Encode] is only ever called here with a nil value or with
    class context, for which the content buffer starts empty. *)
Definition Encode (classType : BerClass) (tagType : BerType) (tag : Z)
    (value : BerValue) (description : string) : Packet :=
  {| ClassType := classType; TagType := tagType; Tag := tag;
     Value := value; Data := [];
     Children := []; Description := description |}.

Definition NewInteger (classType : BerClass) (tagType : BerType) (tag : Z)
    (value : BerValue) (description : string) : Packet :=
  {| ClassType := classType; TagType := tagType; Tag := tag;
     Value := value;
     Data := match value with
             | VInt n | VInt64 n => encodeInteger n
             | _ => []
             end;
     Children := []; Description := description |}.

Definition NewString (classType : BerClass) (tagType : BerType) (tag : Z)
    (value : string) (description : string) : Packet :=
  {| ClassType := classType; TagType := tagType; Tag := tag;
     Value := VString value;
     Data := list_byte_of_string value;
     Children := []; Description := description |}.

Definition AppendChild (p child : Packet) : Packet :=
  {| ClassType := ClassType p; TagType := TagType p; Tag := Tag p;
     Value := Value p;
     Data := Data p ++ Bytes child;
     Children := Children p ++ [Some child];
     Description := Description p |}.
End Ber.

(** ** Controls

    The control types live in the control framework, which is not among
    the files at hand. Section 3 of the specification describes a control
    as an OID with a criticality flag and an opaque value, with a closed
    set of known variants; section 6 lists the paging control and the
    directory-synchronization control. Only the fields the drivers touch
    are kept. *)

(** Modelled from the spec: the OID of the paging control. *)
Definition ControlTypePaging : string := "1.2.840.113556.1.4.319".

(** Modelled from the spec: the OID of the directory-synchronization
    control, shared by its request and response variants. *)
Definition ControlTypeMicrosoftDirSync : string := "1.2.840.113556.1.4.841".

(** Modelled from the spec: a control that was not recognized and
    passes through as an opaque value (OID, criticality, raw value). *)
Record ControlString : Type := {
  ControlType : string;
  Criticality : bool;
  ControlValue : string
}.

(** Modelled from the spec: the paging control (page size and cookie). *)
Record ControlPaging : Type := {
  PagingSize : Z;
  PagingCookie : list byte
}.

(** Modelled from the spec: the request variant of the
    directory-synchronization control (flags and cookie). *)
Record ControlMicrosoftDirSync : Type := {
  Flags : Z;
  RequestCookie : list byte
}.

(** Modelled from the spec: the response variant of the
    directory-synchronization control (more-results flag and cookie). *)
Record ControlMicrosoftDirSyncResponse : Type := {
  MoreResults : Z;
  Cookie : list byte
}.

(** Modelled from the spec: the [Control] interface, as the closed set
    of its variants. *)
Inductive Control : Type :=
| CString (c : ControlString)
| CPaging (c : ControlPaging)
| CMicrosoftDirSync (c : ControlMicrosoftDirSync)
| CMicrosoftDirSyncResponse (c : ControlMicrosoftDirSyncResponse).

(** Modelled from the spec: the OID a control is filed under; an opaque
    control answers with the OID it was received with. *)
Definition GetControlType (c : Control) : string :=
  match c with
  | CString c => ControlType c
  | CPaging _ => ControlTypePaging
  | CMicrosoftDirSync _ => ControlTypeMicrosoftDirSync
  | CMicrosoftDirSyncResponse _ => ControlTypeMicrosoftDirSync
  end.

(** Modelled from the spec: [FindControl], the lookup of the first
    control carrying a given OID. A control is a pointer in the source;
    its identity is its position in the slice, which [FindControlIndex]
    returns. *)
Fixpoint FindControlIndex (controls : list Control) (controlType : string)
    : option nat :=
  match controls with
  | [] => None
  | c :: rest =>
      if decide (GetControlType c = controlType) then Some O
      else S <$> FindControlIndex rest controlType
  end.

Definition FindControl (controls : list Control) (controlType : string)
    : option Control :=
  match FindControlIndex controls controlType with
  | Some i => controls !! i
  | None => None
  end.

(** Modelled from the spec: [SetCookie], which stores the cookie to
    send on the next round. *)
Definition SetCookie (cookie : list byte) (c : ControlMicrosoftDirSync)
    : ControlMicrosoftDirSync :=
  {| Flags := Flags c; RequestCookie := cookie |}.

(** The assignment [dirSyncControl.Flags = flags]. *)
Definition SetFlags (flags : Z) (c : ControlMicrosoftDirSync)
    : ControlMicrosoftDirSync :=
  {| Flags := flags; RequestCookie := RequestCookie c |}.

(** ** Errors

    A Go [error] is either the package's [*Error] (built by [NewError]
    from a result code and an underlying error) or an untyped error made
    by [errors.New] or [fmt.Errorf]; the argument that [fmt.Errorf]
    formats (an error under [%s], a control under [%v]) is kept as a
    value rather than rendered. *)

Inductive error : Type :=
| NewError (ResultCode : Z) (Err : error)
| errors_New (text : string)
| fmt_Errorf (format : string) (arg : error)
| fmt_Errorf_v (format : string) (arg : Control).

(** Modelled from the spec: the client-side result codes of the error
    table, which is not among the files at hand. Section 6 fixes 0 as
    success and section 7 names the failure kinds; the numbers are the
    ones the package assigns above the range of server result codes. *)
Definition ErrorNetwork : Z := 200.
Definition ErrorUnexpectedResponse : Z := 205.
Definition ErrorEmptyPassword : Z := 206.

(** Modelled from the spec: the failure taxonomy of section 7, read off
    an error the only way a caller can, through its result code. Untyped
    errors carry no class. *)
Inductive ErrorClass : Type :=
| NetworkError
| ProtocolFormatError
| ResultCodeError
| ClientMisuseError
| ProtocolViolationError.

Definition errorClass (e : error) : option ErrorClass :=
  match e with
  | NewError code _ =>
      if decide (code = ErrorNetwork) then Some NetworkError
      else if decide (code = ErrorUnexpectedResponse) then Some ProtocolFormatError
      else if decide (code = ErrorEmptyPassword) then Some ClientMisuseError
      else Some ResultCodeError
  | _ => None
  end.

(** [NewError(code, errors.New(text))], for short. *)
Definition NewLDAPError (code : Z) (text : string) : error :=
  NewError code (errors_New text).

(** ** Search requests and results

    The search types are declared with the search operation, which is
    not among the files at hand. Section 4.5 of the specification lists
    the parts of a search envelope and section 3 the three ordered
    sequences of a SearchResult. *)

(** Modelled from the spec: the base-object scope (RFC 4511, 4.5.1). *)
Definition ScopeBaseObject : Z := 0.

(** Modelled from the spec: the dereference policy that never
    dereferences aliases (RFC 4511, 4.5.1). *)
Definition NeverDerefAliases : Z := 0.

(** Modelled from the spec: an attribute of an entry. *)
Record EntryAttribute : Type := {
  Name : string;
  Values : list string
}.

Module Entry.
(** Modelled from the spec: a directory entry. *)
Record t : Type := mk {
  DN : string;
  Attributes : list EntryAttribute
}.
End Entry.

Module SearchRequest.
(** Modelled from the spec: the parts of a search envelope. *)
Record t : Type := mk {
  BaseDN : string;
  Scope : Z;
  DerefAliases : Z;
  SizeLimit : Z;
  TimeLimit : Z;
  TypesOnly : bool;
  Filter : string;
  Attributes : list string;
  Controls : list Control
}.

(** The assignment to the [Controls] field. *)
Definition withControls (controls : list Control) (r : t) : t :=
  mk (BaseDN r) (Scope r) (DerefAliases r) (SizeLimit r) (TimeLimit r)
     (TypesOnly r) (Filter r) (Attributes r) controls.
End SearchRequest.

Module SearchResult.
(** Modelled from the spec: the three ordered sequences of a result. *)
Record t : Type := mk {
  Entries : list (option Entry.t);
  Referrals : list string;
  Controls : list Control
}.

(** [new(SearchResult)] *)
Definition new : t := mk [] [] [].
End SearchResult.

(** Modelled from the spec: [NewSearchRequest], the positional
    constructor of a search request. *)
Definition NewSearchRequest (BaseDN : string)
    (Scope DerefAliases SizeLimit TimeLimit : Z) (TypesOnly : bool)
    (Filter : string) (Attributes : list string) (Controls : list Control)
    : SearchRequest.t :=
  SearchRequest.mk BaseDN Scope DerefAliases SizeLimit TimeLimit TypesOnly
    Filter Attributes Controls.

(** ** The connection

    The connection, its registry and its transport are not among the
    files at hand. *)

(** Modelled from the spec: what awaiting a response can bring, a closed
    channel or a delivery that reads as a packet or as an error. *)
Inductive Response : Type :=
| ChannelClosed
| Delivered (packet : option Packet) (err : option error).

(** Modelled from the spec: following sections 3 and 4.1, a connection
    owns a message-ID counter, a registry of pending message IDs and a
    serialized write path; the remote peer is deterministic: [respond]
    gives what is delivered to a message ID after the envelopes written
    so far, [searchReply] gives the outcome of a search after the
    searches issued so far. [written] and [searches] record what left
    the client, oldest first. *)
Record Conn : Type := mkConn {
  Debug : bool;
  isClosing : bool;
  messageID : Z;
  pending : gset Z;
  written : list Packet;
  respond : list Packet -> Z -> Response;
  searches : list SearchRequest.t;
  searchReply : list SearchRequest.t -> SearchRequest.t ->
                option SearchResult.t * option error
}.

(** Modelled from the spec: the handle of a pending request, keyed by
    its message ID. *)
Record messageContext : Type := { id : Z }.

(** Modelled from the spec: the counter is handed out and advanced. *)
Definition nextMessageID (l : Conn) : Z * Conn :=
  (messageID l,
   mkConn (Debug l) (isClosing l) (wrap_int64 (messageID l + 1)) (pending l)
     (written l) (respond l) (searches l) (searchReply l)).

(** Modelled from the spec: the message ID of an envelope is its first
    child. *)
Definition envelopeID (packet : Packet) : Z :=
  match Children packet !! 0%nat with
  | Some (Some c) => match Value c with VInt64 n => n | _ => 0 end
  | _ => 0
  end.

(** Modelled from the spec: submitting an envelope registers its message
    ID and writes it, unless the connection is closing, in which case
    nothing is written and the caller gets a network failure. *)
Definition sendMessage (packet : Packet) (l : Conn)
    : option messageContext * option error * Conn :=
  if isClosing l then
    (None, Some (NewLDAPError ErrorNetwork "ldap: connection closed"), l)
  else
    (Some {| id := envelopeID packet |}, None,
     mkConn (Debug l) (isClosing l) (messageID l)
       ({[ envelopeID packet ]} ∪ pending l)
       (written l ++ [packet]) (respond l) (searches l) (searchReply l)).

(** Modelled from the spec: finishing a message removes its registry
    entry. *)
Definition finishMessage (msgCtx : messageContext) (l : Conn) : Conn :=
  mkConn (Debug l) (isClosing l) (messageID l)
    (pending l ∖ {[ id msgCtx ]})
    (written l) (respond l) (searches l) (searchReply l).

(** Modelled from the spec: awaiting the correlated response. The steps
    are those [SASLBind] performs inline on the response channel. *)
Definition readPacket (msgCtx : messageContext) (l : Conn)
    : option Packet * option error :=
  match respond l (written l) (id msgCtx) with
  | ChannelClosed =>
      (None, Some (NewLDAPError ErrorNetwork "ldap: response channel closed"))
  | Delivered packet (Some err) => (None, Some err)
  | Delivered packet None => (packet, None)
  end.

(** Modelled from the spec: the search primitive, one round trip whose
    outcome is the peer's; the request is recorded as issued. *)
Definition Search (searchRequest : SearchRequest.t) (l : Conn)
    : (option SearchResult.t * option error) * Conn :=
  (searchReply l (searches l) searchRequest,
   mkConn (Debug l) (isClosing l) (messageID l) (pending l) (written l)
     (respond l) (searches l ++ [searchRequest]) (searchReply l)).

(** ** Helpers of the package that the modelled files call

    The control codec, the constructor of the DirSync request control
    and the debugging annotator are defined in files that are not at
    hand; they are taken as parameters. [DecodeControl] either yields a
    control or fails; [addLDAPDescriptions] relabels a packet or fails. *)
Class Helpers : Type := {
  DecodeControl : option Packet -> Control + error;
  encodeControls : list Control -> Packet;
  addLDAPDescriptions : option Packet -> option Packet * option error;
  NewControlMicrosoftDirSync : ControlMicrosoftDirSync
}.

(** Modelled from the spec: the application tag of a bind request
    (RFC 4511, section 4.2). *)
Definition ApplicationBindRequest : Z := 0.

(** The [request] interface: something that can append itself to an
    envelope. The envelope is a pointer in the source; the updated
    envelope is returned. *)
Class request (A : Type) : Type := {
  appendTo : A -> Packet -> Packet * option error
}.

Definition requestFunc : Type := Packet -> Packet * option error.

#[global] Instance requestFunc_request : request requestFunc := {
  appendTo f envelope := f envelope
}.

(** Dereferencing the element of a slice of pointers: out of range and
    nil both panic. *)
Definition deref {A : Type} (x : option (option A)) : Go A :=
  match x with
  | Some (Some a) => Ret a
  | _ => Panic
  end.

(** [Data.Bytes()]: the unread content of the buffer, a nil slice when
    the buffer holds nothing. *)
Definition bufferBytes (data : list byte) : option (list byte) :=
  match data with
  | [] => None
  | _ :: _ => Some data
  end.

(** The unchecked type assertions [.(int64)] and [.(string)]. *)
Definition assert_int64 (v : BerValue) : Go Z :=
  match v with VInt64 n => Ret n | _ => Panic end.

Definition assert_string (v : BerValue) : Go string :=
  match v with VString s => Ret s | _ => Panic end.

(** ** bind.go *)

Module SimpleBindRequest.
Record t : Type := mk {
  Username : string;
  Password : string;
  Controls : list Control;
  AllowEmptyPassword : bool
}.
End SimpleBindRequest.

Module SimpleBindResult.
Record t : Type := mk {
  Controls : list Control
}.
End SimpleBindResult.

Definition NewSimpleBindRequest (username password : string)
    (controls : list Control) : SimpleBindRequest.t :=
  {| SimpleBindRequest.Username := username;
     SimpleBindRequest.Password := password;
     SimpleBindRequest.Controls := controls;
     SimpleBindRequest.AllowEmptyPassword := false |}.

Section Bind.
Context `{BerCodec} `{Helpers}.

Definition SimpleBindRequest_appendTo (req : SimpleBindRequest.t)
    (envelope : Packet) : Packet * option error :=
  let pkt := Encode ClassApplication TypeConstructed ApplicationBindRequest
               VNil "Bind Request" in
  let pkt := AppendChild pkt
               (NewInteger ClassUniversal TypePrimitive TagInteger (VInt 3)
                  "Version") in
  let pkt := AppendChild pkt
               (NewString ClassUniversal TypePrimitive TagOctetString
                  (SimpleBindRequest.Username req) "User Name") in
  let pkt := AppendChild pkt
               (NewString ClassContext TypePrimitive 0
                  (SimpleBindRequest.Password req) "Password") in
  let envelope := AppendChild envelope pkt in
  let envelope :=
    if (0 <? length (SimpleBindRequest.Controls req))%nat
    then AppendChild envelope (encodeControls (SimpleBindRequest.Controls req))
    else envelope in
  (envelope, None).

#[global] Instance SimpleBindRequest_request : request SimpleBindRequest.t := {
  appendTo := SimpleBindRequest_appendTo
}.

(** Modelled from the spec: building the envelope around a request
    (message ID first, then the operation) and submitting it. *)
Definition doRequest {A : Type} `{request A} (req : A) (l : Conn)
    : option messageContext * option error * Conn :=
  let packet := Encode ClassUniversal TypeConstructed TagSequence VNil
                  "LDAP Request" in
  let '(mid, l) := nextMessageID l in
  let packet := AppendChild packet
                  (NewInteger ClassUniversal TypePrimitive TagInteger
                     (VInt64 mid) "MessageID") in
  let '(packet, err) := appendTo req packet in
  match err with
  | Some e => (None, Some e, l)
  | None => sendMessage packet l
  end.

(** Modelled from the spec: [GetLDAPError], the validation of the
    result code of a response envelope (sections 4.4 and 6). The
    response is the second child
    of the envelope, an application-tagged constructed value that starts
    with the result code, the matched DN and the diagnostic message; code
    0 is success, any other integer is a failure carrying the code and
    the diagnostic message. *)
Definition GetLDAPError (packet : option Packet) : option error :=
  match packet with
  | None => Some (NewLDAPError ErrorUnexpectedResponse "Empty packet")
  | Some p =>
      match Children p !! 1%nat with
      | Some None =>
          Some (NewLDAPError ErrorUnexpectedResponse "Empty response in packet")
      | Some (Some response) =>
          match ClassType response, TagType response,
                Children response with
          | ClassApplication, TypeConstructed, Some c0 :: _ :: Some c2 :: _ =>
              match Value c0, Value c2 with
              | VInt64 code, VString diagnostic =>
                  if decide (code = 0) then None
                  else Some (NewLDAPError code diagnostic)
              | _, _ => Some (NewLDAPError ErrorNetwork "Invalid packet format")
              end
          | _, _, _ => Some (NewLDAPError ErrorNetwork "Invalid packet format")
          end
      | None => Some (NewLDAPError ErrorNetwork "Invalid packet format")
      end
  end.

(** The loop over the children of the controls section. *)
Fixpoint decodeChildren (children : list (option Packet))
    (controls : list Control) : list Control + error :=
  match children with
  | [] => inl controls
  | child :: rest =>
      match DecodeControl child with
      | inr decodeErr =>
          inr (fmt_Errorf "failed to decode child control: %s" decodeErr)
      | inl decodedChild => decodeChildren rest (controls ++ [decodedChild])
      end
  end.

(** The decoding of response controls, attempted only when the envelope
    has exactly three children. *)
Definition decodeResponseControls (packet : Packet) (controls : list Control)
    : Go (list Control + error) :=
  if decide (length (Children packet) = 3%nat) then
    do* section <- deref (Children packet !! 2%nat);
    Ret (decodeChildren (Children section) controls)
  else Ret (inl controls).

Definition SimpleBind (simpleBindRequest : SimpleBindRequest.t) (l : Conn)
    : Go (option SimpleBindResult.t * option error * Conn) :=
  if bool_decide (SimpleBindRequest.Password simpleBindRequest = "")
     && negb (SimpleBindRequest.AllowEmptyPassword simpleBindRequest)
  then
    Ret (None,
         Some (NewError ErrorEmptyPassword
                 (errors_New "ldap: empty password not allowed by the client")),
         l)
  else
    match doRequest simpleBindRequest l with
    | (_, Some err, l) => Ret (None, Some err, l)
    | (None, None, _) => Panic
    | (Some msgCtx, None, l) =>
        (* defer l.finishMessage(msgCtx) *)
        let l' := finishMessage msgCtx l in
        match readPacket msgCtx l with
        | (_, Some err) => Ret (None, Some err, l')
        | (None, None) => Panic
        | (Some packet, None) =>
            let result := SimpleBindResult.mk [] in
            do* decoded <-
              decodeResponseControls packet (SimpleBindResult.Controls result);
            match decoded with
            | inr err => Ret (None, Some err, l')
            | inl controls =>
                Ret (Some (SimpleBindResult.mk controls),
                     GetLDAPError (Some packet), l')
            end
        end
    end.

Definition Bind (username password : string) (l : Conn)
    : Go (option error * Conn) :=
  let req := {| SimpleBindRequest.Username := username;
                SimpleBindRequest.Password := password;
                SimpleBindRequest.Controls := [];
                SimpleBindRequest.AllowEmptyPassword := false |} in
  do* (_, err, l) <- SimpleBind req l;
  Ret (err, l).

Definition UnauthenticatedBind (username : string) (l : Conn)
    : Go (option error * Conn) :=
  let req := {| SimpleBindRequest.Username := username;
                SimpleBindRequest.Password := "";
                SimpleBindRequest.Controls := [];
                SimpleBindRequest.AllowEmptyPassword := true |} in
  do* (_, err, l) <- SimpleBind req l;
  Ret (err, l).

Definition getSASLBindResultCode (packet : option Packet)
    : Go (Z * option (list byte) * string) :=
  match packet with
  | None => Ret (ErrorUnexpectedResponse, None, "Empty packet")
  | Some packet =>
      if (2 <=? length (Children packet))%nat then
        match Children packet !! 1%nat with
        | None => Panic
        | Some None =>
            Ret (ErrorUnexpectedResponse, None, "Empty response in packet")
        | Some (Some response) =>
            if bool_decide (ClassType response = ClassApplication)
               && bool_decide (TagType response = TypeConstructed)
               && (3 <=? length (Children response))%nat
            then
              do* c0 <- deref (Children response !! 0%nat);
              do* n <- assert_int64 (Value c0);
              let code := uint8 n in
              do* c2 <- deref (Children response !! 2%nat);
              do* description <- assert_string (Value c2);
              if (4 <=? length (Children response))%nat then
                do* responseToken <- deref (Children response !! 3%nat);
                Ret (code, bufferBytes (Data responseToken), description)
              else Ret (code, None, description)
            else Ret (ErrorNetwork, None, "Invalid packet format")
        end
      else Ret (ErrorNetwork, None, "Invalid packet format")
  end.

(** The envelope [SASLBind] builds, for the message ID it drew. *)
Definition saslBindEnvelope (mid : Z) (mechanism : string)
    (credentials : list byte) : Packet :=
  let packet := Encode ClassUniversal TypeConstructed TagSequence VNil
                  "LDAP Request" in
  let packet := AppendChild packet
                  (NewInteger ClassUniversal TypePrimitive TagInteger
                     (VInt64 mid) "MessageID") in
  let bindRequest := Encode ClassApplication TypeConstructed
                       ApplicationBindRequest VNil "Bind Request" in
  let bindRequest := AppendChild bindRequest
                       (NewInteger ClassUniversal TypePrimitive TagInteger
                          (VInt 3) "Version") in
  let bindRequest := AppendChild bindRequest
                       (NewString ClassUniversal TypePrimitive TagOctetString
                          "" "Name") in
  let saslCreds := Encode ClassContext TypeConstructed 3 VNil
                     "SaslCredentials" in
  let saslCreds := AppendChild saslCreds
                     (NewString ClassUniversal TypePrimitive TagOctetString
                        mechanism "Mechanism") in
  let saslCreds := AppendChild saslCreds
                     (NewString ClassUniversal TypePrimitive TagOctetString
                        (string_of_list_byte credentials) "Credentials") in
  let bindRequest := AppendChild bindRequest saslCreds in
  AppendChild packet bindRequest.

(** [SASLBind]. The returned token is [None] for a nil slice, which is
    also what a fourth child with empty content gives. Printing
    of packets under [Debug] has no effect on the result and is left
    out; the annotation step, which can fail, is kept. *)
Definition SASLBind (mechanism : string) (credentials : list byte) (l : Conn)
    : Go (option (list byte) * option error * Conn) :=
  let '(mid, l) := nextMessageID l in
  let packet := saslBindEnvelope mid mechanism credentials in
  match sendMessage packet l with
  | (_, Some err, l) => Ret (None, Some err, l)
  | (None, None, _) => Panic
  | (Some msgCtx, None, l) =>
      (* defer l.finishMessage(msgCtx) *)
      let l' := finishMessage msgCtx l in
      match respond l (written l) (id msgCtx) with
      | ChannelClosed =>
          Ret (None,
               Some (NewError ErrorNetwork
                       (errors_New "ldap: response channel closed")),
               l')
      | Delivered _ (Some err) => Ret (None, Some err, l')
      | Delivered packet None =>
          let '(packet, err) :=
            if Debug l then addLDAPDescriptions packet else (packet, None) in
          match err with
          | Some err => Ret (None, Some err, l')
          | None =>
              do* (resultCode, resultToken, resultDescription) <-
                getSASLBindResultCode packet;
              if negb (bool_decide (resultCode = 0)) then
                Ret (None,
                     Some (NewError resultCode (errors_New resultDescription)),
                     l')
              else Ret (resultToken, None, l')
          end
      end
  end.

Definition externalBindRequest : requestFunc := fun envelope =>
  let pkt := Encode ClassApplication TypeConstructed ApplicationBindRequest
               VNil "Bind Request" in
  let pkt := AppendChild pkt
               (NewInteger ClassUniversal TypePrimitive TagInteger (VInt 3)
                  "Version") in
  let pkt := AppendChild pkt
               (NewString ClassUniversal TypePrimitive TagOctetString
                  "" "User Name") in
  let saslAuth := Encode ClassContext TypeConstructed 3 (VString "")
                    "authentication" in
  let saslAuth := AppendChild saslAuth
                    (NewString ClassUniversal TypePrimitive TagOctetString
                       "EXTERNAL" "SASL Mech") in
  let saslAuth := AppendChild saslAuth
                    (NewString ClassUniversal TypePrimitive TagOctetString
                       "" "SASL Cred") in
  let pkt := AppendChild pkt saslAuth in
  (AppendChild envelope pkt, None).

Definition ExternalBind (l : Conn) : Go (option error * Conn) :=
  match doRequest externalBindRequest l with
  | (_, Some err, l) => Ret (Some err, l)
  | (None, None, _) => Panic
  | (Some msgCtx, None, l) =>
      let l' := finishMessage msgCtx l in
      match readPacket msgCtx l with
      | (_, Some err) => Ret (Some err, l')
      | (packet, None) => Ret (GetLDAPError packet, l')
      end
  end.

End Bind.

(** ** The RootDSE accessor *)

Definition RootDSEdefaultNamingContext : string := "defaultNamingContext".
Definition RootDSEdnsHostName : string := "dnsHostName".
Definition RootDSEsupportedSASLMechanisms : string := "supportedSASLMechanisms".
Definition RootDSEldapServiceName : string := "ldapServiceName".
Definition RootDSEhighestCommittedUSN : string := "highestCommittedUSN".
Definition RootDSEsubschemaSubentry : string := "subschemaSubentry".

(** The search [RootDSE] builds for a list of fields. *)
Definition rootDSESearch (fields : list string) : SearchRequest.t :=
  let fields := if decide (length fields = 0%nat) then [] else fields in
  NewSearchRequest
    "" (* BaseDN *)
    ScopeBaseObject NeverDerefAliases 0 0 false
    "(objectclass=*)"
    fields
    [].

Definition RootDSE (fields : list string) (conn : Conn)
    : Go (option Entry.t * option error * Conn) :=
  let search := rootDSESearch fields in
  let '(res, err, conn) := Search search conn in
  match err with
  | Some err => Ret (None, Some err, conn)
  | None =>
      do* res <- deref (Some res);
      if negb (bool_decide (length (SearchResult.Entries res) = 1%nat)) then
        Ret (None, Some (errors_New "Cannot get RootDSE"), conn)
      else
        (* res.Entries[0], a pointer that may itself be nil *)
        do* rootEntry <- deref (Some (SearchResult.Entries res !! 0%nat));
        Ret (rootEntry, None, conn)
  end.

(** ** The directory-synchronization driver *)

Section DirSync.
Context `{Helpers}.

(** A write through the pointer [dirSyncControl], which designates the
    control at position [i] of the request's controls. The write shows
    at position [i] only: this is the source's behaviour when no other
    position of the slice holds the same pointer, which is so whenever
    the request has a single control under the DirSync OID. *)
Definition throughPointer (f : ControlMicrosoftDirSync -> ControlMicrosoftDirSync)
    (i : nat) (searchRequest : SearchRequest.t) : SearchRequest.t :=
  SearchRequest.withControls
    (alter (fun c => match c with
                     | CMicrosoftDirSync d => CMicrosoftDirSync (f d)
                     | _ => c
                     end) i (SearchRequest.Controls searchRequest))
    searchRequest.

(** What [SearchWithDirSync] returns: the accumulated result, the final
    cookie ([None] for nil) and the error, together with the request as
    the caller finds it afterwards and the connection. *)
Definition DirSyncReturn : Type :=
  option SearchResult.t * option (list byte) * option error
  * SearchRequest.t * Conn.

Definition appendResult (searchResult result : SearchResult.t)
    : SearchResult.t :=
  SearchResult.mk
    (SearchResult.Entries searchResult ++ SearchResult.Entries result)
    (SearchResult.Referrals searchResult ++ SearchResult.Referrals result)
    (SearchResult.Controls searchResult ++ SearchResult.Controls result).

(** The [for] loop. It has no bound in the source; [fuel] bounds the
    number of rounds and [None] means the bound was reached. *)
Fixpoint dirSyncLoop (fuel : nat) (i : nat) (searchRequest : SearchRequest.t)
    (searchResult : SearchResult.t) (l : Conn) : option (Go DirSyncReturn) :=
  match fuel with
  | O => None
  | S fuel =>
      let '(result, err, l) := Search searchRequest l in
      match err, result with
      | Some err, _ =>
          Some (Ret (Some searchResult, None, Some err, searchRequest, l))
      | None, None =>
          Some (Ret (Some searchResult, None,
                     Some (NewError ErrorNetwork
                             (errors_New "ldap: packet not received")),
                     searchRequest, l))
      | None, Some result =>
          let searchResult := appendResult searchResult result in
          match FindControl (SearchResult.Controls result)
                  ControlTypeMicrosoftDirSync with
          | None =>
              Some (Ret (Some searchResult, None,
                         Some (NewError ErrorNetwork
                                 (errors_New
                                    "ldap: response is missing DirSync control")),
                         searchRequest, l))
          | Some (CMicrosoftDirSyncResponse dirSyncResponse) =>
              let newCookie := Cookie dirSyncResponse in
              if bool_decide (length newCookie = 0%nat) then
                Some (Ret (Some searchResult, None,
                           Some (NewError ErrorNetwork
                                   (errors_New
                                      "ldap: empty cookie in DirSync control response")),
                           searchRequest, l))
              else if bool_decide (MoreResults dirSyncResponse = 0) then
                Some (Ret (Some searchResult, Some newCookie, None,
                           searchRequest, l))
              else
                dirSyncLoop fuel i
                  (throughPointer (SetCookie newCookie) i searchRequest)
                  searchResult l
          | Some _ => Some Panic
          end
      end
  end.

(** The lines before the loop: find or attach the request control and
    return its position, or fail when the control found under the DirSync
    OID is of another type. *)
Definition attachDirSync (searchRequest : SearchRequest.t)
    : (nat * SearchRequest.t) + error :=
  let controls := SearchRequest.Controls searchRequest in
  match FindControl controls ControlTypeMicrosoftDirSync with
  | None =>
      inl (length controls,
           SearchRequest.withControls
             (controls ++ [CMicrosoftDirSync NewControlMicrosoftDirSync])
             searchRequest)
  | Some (CMicrosoftDirSync _) =>
      inl (default O (FindControlIndex controls ControlTypeMicrosoftDirSync),
           searchRequest)
  | Some control =>
      inr (fmt_Errorf_v
             "expected dirSync control to be of type *ControlMicrosoftDirSync, got %v"
             control)
  end.

Definition SearchWithDirSync (fuel : nat) (searchRequest : SearchRequest.t)
    (cookie : list byte) (flags : Z) (l : Conn) : option (Go DirSyncReturn) :=
  match attachDirSync searchRequest with
  | inr err => Some (Ret (None, None, Some err, searchRequest, l))
  | inl (i, searchRequest) =>
      let searchRequest := throughPointer (SetCookie cookie) i searchRequest in
      let searchRequest := throughPointer (SetFlags flags) i searchRequest in
      dirSyncLoop fuel i searchRequest SearchResult.new l
  end.

End DirSync.

(** ** Vocabulary of the statements *)

(** The fixed shape of a response envelope: the second child is an
    application-tagged constructed value whose first child decodes to an
    [int64] result code and whose third child decodes to the diagnostic
    string. Returns the code, the diagnostic and the children after the
    third. *)
Definition responseShape (packet : Packet)
    : option (Z * string * list (option Packet)) :=
  match Children packet !! 1%nat with
  | Some (Some response) =>
      match ClassType response, TagType response, Children response with
      | ClassApplication, TypeConstructed, Some c0 :: _ :: Some c2 :: rest =>
          match Value c0, Value c2 with
          | VInt64 code, VString diagnostic => Some (code, diagnostic, rest)
          | _, _ => None
          end
      | _, _, _ => None
      end
  | _ => None
  end.

(** The token of a response whose operation has the children [rest]
    after the diagnostic message: the content of the first of them, nil
    when there is none or when its content is empty. *)
Definition tokenOf (rest : list (option Packet)) : option (list byte) :=
  match rest with
  | Some responseToken :: _ => bufferBytes (Data responseToken)
  | _ => None
  end.

(** The cookie a request carries in the DirSync control at position [i]. *)
Definition dirSyncCookie (i : nat) (searchRequest : SearchRequest.t)
    : option (list byte) :=
  match SearchRequest.Controls searchRequest !! i with
  | Some (CMicrosoftDirSync d) => Some (RequestCookie d)
  | _ => None
  end.

(** A run of rounds that all continue: each search succeeds and its
    DirSync response control has a non-empty cookie and a non-zero
    more-results indicator; the next search is asked with the request as
    the driver leaves it. The list records each round's result and
    response control. *)
Inductive Rounds (i : nat)
  : SearchRequest.t -> Conn ->
    list (SearchResult.t * ControlMicrosoftDirSyncResponse) ->
    SearchRequest.t -> Conn -> Prop :=
| Rounds_done searchRequest l : Rounds i searchRequest l [] searchRequest l
| Rounds_more searchRequest l result d l' rest searchRequest'' l'' :
    Search searchRequest l = (Some result, None, l') ->
    FindControl (SearchResult.Controls result) ControlTypeMicrosoftDirSync
      = Some (CMicrosoftDirSyncResponse d) ->
    Cookie d <> [] ->
    MoreResults d <> 0 ->
    Rounds i (throughPointer (SetCookie (Cookie d)) i searchRequest) l'
      rest searchRequest'' l'' ->
    Rounds i searchRequest l ((result, d) :: rest) searchRequest'' l''.

(** The accumulator after a list of rounds. *)
Definition accumulate (searchResult : SearchResult.t)
    (results : list SearchResult.t) : SearchResult.t :=
  foldl appendResult searchResult results.

(** ** A stub peer, for running the definitions on concrete inputs *)

Definition byte_of_Z (n : Z) : byte :=
  default x00 (Byte.of_N (Z.to_N (n mod 256))).

(** A codec for small packets: one identifier octet, one length octet. *)
Definition identifierOctet (p : Packet) : Z :=
  (match ClassType p with
   | ClassUniversal => 0 | ClassApplication => 64
   | ClassContext => 128 | ClassPrivate => 192
   end)
  + (match TagType p with TypePrimitive => 0 | TypeConstructed => 32 end)
  + Tag p.

#[local] Instance shortCodec : BerCodec := {
  Bytes p :=
    byte_of_Z (identifierOctet p)
      :: byte_of_Z (Z.of_nat (length (Data p))) :: Data p;
  encodeInteger n := [byte_of_Z n]
}.

(** Controls on the wire, for the stub: a sequence whose first child is
    the OID. *)
Definition stubEncodeControl (c : Control) : Packet :=
  AppendChild (Encode ClassUniversal TypeConstructed TagSequence VNil "Control")
    (NewString ClassUniversal TypePrimitive TagOctetString (GetControlType c)
       "Control Type").

Definition stubDecodeControl (packet : option Packet) : Control + error :=
  match packet with
  | Some p =>
      match Children p with
      | Some c :: _ =>
          match Value c with
          | VString oid =>
              inl (CString {| ControlType := oid; Criticality := false;
                              ControlValue := "" |})
          | _ => inr (errors_New "control type is not a string")
          end
      | _ => inr (errors_New "control has no type")
      end
  | None => inr (errors_New "nil control")
  end.

#[local] Instance stubHelpers : Helpers := {
  DecodeControl := stubDecodeControl;
  encodeControls controls :=
    foldl (fun p c => AppendChild p (stubEncodeControl c))
      (Encode ClassContext TypeConstructed 0 VNil "Controls") controls;
  addLDAPDescriptions packet := (packet, None);
  NewControlMicrosoftDirSync := {| Flags := 0; RequestCookie := [] |}
}.

(** A response envelope as a server sends it: message ID, then the
    operation response with result code, matched DN, diagnostic message
    and what follows them; then the envelope's further children. *)
Definition stubResponse (mid code : Z) (diagnostic : string)
    (more : list (option Packet)) (sections : list (option Packet)) : Packet :=
  {| ClassType := ClassUniversal; TagType := TypeConstructed;
     Tag := TagSequence; Value := VNil; Data := [];
     Children :=
       Some (NewInteger ClassUniversal TypePrimitive TagInteger (VInt64 mid)
               "MessageID")
       :: Some {| ClassType := ClassApplication; TagType := TypeConstructed;
                  Tag := 1; Value := VNil; Data := [];
                  Children :=
                    Some (NewInteger ClassUniversal TypePrimitive 10
                            (VInt64 code) "resultCode")
                    :: Some (NewString ClassUniversal TypePrimitive
                               TagOctetString "" "matchedDN")
                    :: Some (NewString ClassUniversal TypePrimitive
                               TagOctetString diagnostic "diagnosticMessage")
                    :: more;
                  Description := "Bind Response" |}
       :: sections;
     Description := "LDAP Response" |}.

(** A peer that answers every message ID with one fixed delivery, and a
    search peer scripted by the cookie the request carries. *)
Definition requestCookie (searchRequest : SearchRequest.t) : list byte :=
  match FindControl (SearchRequest.Controls searchRequest)
          ControlTypeMicrosoftDirSync with
  | Some (CMicrosoftDirSync d) => RequestCookie d
  | _ => []
  end.

Fixpoint scripted
    (script : list (list byte * (option SearchResult.t * option error)))
    (cookie : list byte) : option SearchResult.t * option error :=
  match script with
  | [] => (None, Some (NewLDAPError ErrorNetwork "ldap: connection closed"))
  | (c, outcome) :: rest =>
      if decide (c = cookie) then outcome else scripted rest cookie
  end.

Definition stubConn (reply : Response)
    (script : list (list byte * (option SearchResult.t * option error)))
    : Conn :=
  {| Debug := false; isClosing := false; messageID := 1; pending := ∅;
     written := [];
     respond := fun _ _ => reply;
     searches := [];
     searchReply := fun _ searchRequest =>
                      scripted script (requestCookie searchRequest) |}.

Definition stubEntry (dn : string) : Entry.t :=
  {| Entry.DN := dn; Entry.Attributes := [] |}.

Definition stubRound (dn : string) (more : Z) (cookie : list byte)
    : SearchResult.t :=
  {| SearchResult.Entries := [Some (stubEntry dn)];
     SearchResult.Referrals := [];
     SearchResult.Controls :=
       [CMicrosoftDirSyncResponse {| MoreResults := more; Cookie := cookie |}] |}.

Definition plainSearch : SearchRequest.t :=
  NewSearchRequest "dc=example,dc=com" 2 0 0 0 false "(objectclass=*)" [] [].

(** The driver, called on [l], gets through the continuing rounds
    [rounds] and stands at the head of its loop with the request
    [searchRequest'] and the connection [l']; [i] is the position of the
    DirSync request control. *)
Definition Reaches `{Helpers} (searchRequest : SearchRequest.t)
    (cookie : list byte) (flags : Z) (l : Conn) (i : nat)
    (rounds : list (SearchResult.t * ControlMicrosoftDirSyncResponse))
    (searchRequest' : SearchRequest.t) (l' : Conn) : Prop :=
  exists searchRequest0 : SearchRequest.t,
    attachDirSync searchRequest = inl (i, searchRequest0)
    /\ Rounds i
         (throughPointer (SetFlags flags) i
            (throughPointer (SetCookie cookie) i searchRequest0))
         l rounds searchRequest' l'.

Definition cookieA : list byte := [x01].
Definition cookieB : list byte := [x02].

(** Two rounds: the first continues with [cookieA], the second ends
    with [cookieB]. *)
Definition twoRoundConn : Conn :=
  stubConn ChannelClosed
    [([], (Some (stubRound "cn=a" 1 cookieA), None));
     (cookieA, (Some (stubRound "cn=b" 0 cookieB), None))].

(** One continuing round, then a round whose control has an empty
    cookie and more-results 0. *)
Definition emptyCookieConn : Conn :=
  stubConn ChannelClosed
    [([], (Some (stubRound "cn=a" 1 cookieA), None));
     (cookieA, (Some (stubRound "cn=b" 0 []), None))].

(** A first round with an entry and no DirSync control. *)
Definition noControlRound : SearchResult.t :=
  {| SearchResult.Entries := [Some (stubEntry "cn=a")];
     SearchResult.Referrals := [];
     SearchResult.Controls := [] |}.

Definition missingControlConn : Conn :=
  stubConn ChannelClosed [([], (Some noControlRound, None))].

(** One continuing round, then a round without the control. *)
Definition laterMissingControlConn : Conn :=
  stubConn ChannelClosed
    [([], (Some (stubRound "cn=a" 1 cookieA), None));
     (cookieA, (Some noControlRound, None))].

(** A round whose control under the DirSync OID is an opaque one. *)
Definition opaqueDirSync : Control :=
  CString {| ControlType := ControlTypeMicrosoftDirSync;
             Criticality := false; ControlValue := "" |}.

Definition wrongVariantConn : Conn :=
  stubConn ChannelClosed
    [([], (Some {| SearchResult.Entries := [Some (stubEntry "cn=a")];
                   SearchResult.Referrals := [];
                   SearchResult.Controls := [opaqueDirSync] |}, None))].

Definition adminBind : SimpleBindRequest.t :=
  NewSimpleBindRequest "cn=admin,dc=example,dc=com" "secret" [].

Definition emptyPasswordBind : SimpleBindRequest.t :=
  NewSimpleBindRequest "cn=admin,dc=example,dc=com" "" [].

Definition unauthenticatedBind : SimpleBindRequest.t :=
  {| SimpleBindRequest.Username := "cn=admin,dc=example,dc=com";
     SimpleBindRequest.Password := "";
     SimpleBindRequest.Controls := [];
     SimpleBindRequest.AllowEmptyPassword := true |}.

(** A server that accepts every bind, without a controls section. *)
Definition acceptingConn : Conn :=
  stubConn (Delivered (Some (stubResponse 1 0 "" [] [])) None) [].

(** A server that refuses with code 49 and sends one response control. *)
Definition refusal : Packet :=
  stubResponse 1 49 "invalid credentials" []
    [Some (encodeControls
             [CPaging {| PagingSize := 0; PagingCookie := [] |}])].

Definition refusingConn : Conn := stubConn (Delivered (Some refusal) None) [].

(** A SASL response whose result code is 256, with a server token. *)
Definition serverToken : Packet :=
  {| ClassType := ClassContext; TagType := TypePrimitive; Tag := 7;
     Value := VNil; Data := [x74; x6f; x6b]; Children := [];
     Description := "serverSaslCreds" |}.

Definition wideCodeResponse : Packet :=
  stubResponse 1 256 "denied" [Some serverToken] [].

Definition wideCodeConn : Conn :=
  stubConn (Delivered (Some wideCodeResponse) None) [].

Definition refusedSASLConn : Conn :=
  stubConn (Delivered (Some (stubResponse 1 49 "invalid credentials" [] []))
              None) [].

(** A server whose root entry is the only answer to a search. *)
Definition rootEntry : Entry.t :=
  {| Entry.DN := "";
     Entry.Attributes :=
       [{| Name := RootDSEdnsHostName; Values := ["dc1.example.com"] |}] |}.

Definition rootConn : Conn :=
  stubConn ChannelClosed
    [([], (Some {| SearchResult.Entries := [Some rootEntry];
                   SearchResult.Referrals := [];
                   SearchResult.Controls := [] |}, None))].

(** A first round that asks for more but carries an empty cookie. *)
Definition moreWithoutCookieConn : Conn :=
  stubConn ChannelClosed [([], (Some (stubRound "cn=a" 1 []), None))].

(** The request as the driver sends it: the request [searchRequest0]
    with, in the DirSync control at position [i], the cookie [cookie]
    and the flags [flags]. *)
Definition preparedRequest (i : nat) (cookie : list byte) (flags : Z)
    (searchRequest0 : SearchRequest.t) : SearchRequest.t :=
  throughPointer (SetFlags flags) i
    (throughPointer (SetCookie cookie) i searchRequest0).

(** A request that already holds an opaque control under the DirSync
    OID. *)
Definition opaqueRequest : SearchRequest.t :=
  SearchRequest.withControls [opaqueDirSync] plainSearch.

(** A peer that answers a search with neither a result nor an error. *)
Definition silentConn : Conn :=
  stubConn ChannelClosed [([], (None, None))].

(** A bind response with result code 0 whose controls section holds a
    control without a type, which the stub decoder refuses. *)
Definition brokenControlsResponse : Packet :=
  stubResponse 1 0 "" []
    [Some (AppendChild
             (Encode ClassContext TypeConstructed 0 VNil "Controls")
             (Encode ClassUniversal TypeConstructed TagSequence VNil
                "Control"))].

Definition brokenControlsConn : Conn :=
  stubConn (Delivered (Some brokenControlsResponse) None) [].

(** A SASL response with result code 0 and a server token. *)
Definition acceptedSASLConn : Conn :=
  stubConn (Delivered (Some (stubResponse 1 0 "" [Some serverToken] []))
              None) [].

(** A response whose result code was built from a Go [int] rather than
    decoded from the wire. *)
Definition illTypedOperation : Packet :=
  {| ClassType := ClassApplication; TagType := TypeConstructed; Tag := 1;
     Value := VNil; Data := [];
     Children :=
       [Some (NewInteger ClassUniversal TypePrimitive 10 (VInt 0)
                "resultCode");
        Some (NewString ClassUniversal TypePrimitive TagOctetString ""
                "matchedDN");
        Some (NewString ClassUniversal TypePrimitive TagOctetString ""
                "diagnosticMessage")];
     Description := "Bind Response" |}.

Definition illTypedResponse : Packet :=
  {| ClassType := ClassUniversal; TagType := TypeConstructed;
     Tag := TagSequence; Value := VNil; Data := [];
     Children :=
       [Some (NewInteger ClassUniversal TypePrimitive TagInteger (VInt64 1)
                "MessageID");
        Some illTypedOperation];
     Description := "LDAP Response" |}.

(** The response controls of an envelope decode to [controls]: either
    the envelope does not have exactly three children and there is
    nothing to decode, or its third child is there and each of that
    child's children decodes, in order, to the matching control. *)
Definition controlsDecodeTo `{Helpers} (packet : Packet)
    (controls : list Control) : Prop :=
  (length (Children packet) <> 3%nat /\ controls = [])
  \/ (length (Children packet) = 3%nat
      /\ exists section : Packet,
           Children packet !! 2%nat = Some (Some section)
           /\ Forall2 (fun child c => DecodeControl child = inl c)
                (Children section) controls).

(** A bind accepted with two response controls. *)
Definition acceptanceWithControls : Packet :=
  stubResponse 1 0 "" []
    [Some (encodeControls
             [CPaging {| PagingSize := 0; PagingCookie := [] |};
              opaqueDirSync])].

Definition acceptingWithControlsConn : Conn :=
  stubConn (Delivered (Some acceptanceWithControls) None) [].

(** A bind refused with code 49 whose controls section holds a control
    without a type, which the stub decoder refuses. *)
Definition refusalWithBrokenControl : Packet :=
  stubResponse 1 49 "invalid credentials" []
    [Some (AppendChild
             (Encode ClassContext TypeConstructed 0 VNil "Controls")
             (Encode ClassUniversal TypeConstructed TagSequence VNil
                "Control"))].

Definition refusingBrokenConn : Conn :=
  stubConn (Delivered (Some refusalWithBrokenControl) None) [].

(** A bind refused with the result code 200. *)
Definition refusingWith200Conn : Conn :=
  stubConn (Delivered (Some (stubResponse 1 200 "busy" [] [])) None) [].

(** A search answered with a single nil entry. *)
Definition nilEntryConn : Conn :=
  stubConn ChannelClosed
    [([], (Some {| SearchResult.Entries := [None];
                   SearchResult.Referrals := [];
                   SearchResult.Controls := [] |}, None))].

(** A SASL response with result code 0 and a fourth child without
    content. *)
Definition emptyToken : Packet :=
  {| ClassType := ClassContext; TagType := TypePrimitive; Tag := 7;
     Value := VNil; Data := []; Children := [];
     Description := "serverSaslCreds" |}.

Definition emptyTokenConn : Conn :=
  stubConn (Delivered (Some (stubResponse 1 0 "" [Some emptyToken] []))
              None) [].

(** At most one control of the list is filed under the DirSync OID. A
    pointer that occurred at two positions would show the same control,
    hence the same OID, at both; so under this condition the pointer
    [dirSyncControl] designates one position of the slice only. *)
Definition loneDirSync (controls : list Control) : Prop :=
  forall (j k : nat) (c c' : Control),
    controls !! j = Some c -> controls !! k = Some c' ->
    GetControlType c = ControlTypeMicrosoftDirSync ->
    GetControlType c' = ControlTypeMicrosoftDirSync ->
    j = k.

(** A request that already holds a DirSync request control, after
    another control. *)
Definition resumedSearch : SearchRequest.t :=
  SearchRequest.withControls
    [CPaging {| PagingSize := 0; PagingCookie := [] |};
     CMicrosoftDirSync {| Flags := 1; RequestCookie := cookieB |}]
    plainSearch.

(** * Properties *)

(** ** Pointers into the control list *)

Lemma FindControl_index (controls : list Control) (controlType : string)
    (c : Control) :
  FindControl controls controlType = Some c ->
  exists i, FindControlIndex controls controlType = Some i
            /\ controls !! i = Some c.
Proof.
  unfold FindControl.
  destruct (FindControlIndex controls controlType) as [i|]; [|discriminate].
  intros Hc. exists i. split; [reflexivity | exact Hc].
Qed.

Lemma FindControl_type (controls : list Control) (controlType : string)
    (c : Control) :
  FindControl controls controlType = Some c -> GetControlType c = controlType.
Proof.
  intros Hc. apply FindControl_index in Hc as (i & Hi & Hl).
  revert i Hi Hl. induction controls as [|c' rest IH]; intros i Hi Hl.
  - discriminate.
  - cbn in Hi. destruct (decide (GetControlType c' = controlType)) as [Heq|Hne].
    + injection Hi as <-. cbn in Hl. injection Hl as <-. exact Heq.
    + destruct (FindControlIndex rest controlType) as [j|] eqn:Hj;
        [|discriminate].
      cbn in Hi. injection Hi as <-. cbn in Hl. exact (IH j eq_refl Hl).
Qed.

Lemma dirSyncCookie_SetCookie (i : nat) (searchRequest : SearchRequest.t)
    (c0 c : list byte) :
  dirSyncCookie i searchRequest = Some c0 ->
  dirSyncCookie i (throughPointer (SetCookie c) i searchRequest) = Some c.
Proof.
  unfold dirSyncCookie, throughPointer. destruct searchRequest as [? ? ? ? ? ? ? ? cs].
  cbn. rewrite list_lookup_alter_eq.
  destruct (cs !! i) as [[| |d|]|]; cbn; try discriminate. reflexivity.
Qed.

Lemma dirSyncCookie_SetFlags (i : nat) (searchRequest : SearchRequest.t)
    (flags : Z) :
  dirSyncCookie i (throughPointer (SetFlags flags) i searchRequest)
  = dirSyncCookie i searchRequest.
Proof.
  unfold dirSyncCookie, throughPointer. destruct searchRequest as [? ? ? ? ? ? ? ? cs].
  cbn. rewrite list_lookup_alter_eq.
  destruct (cs !! i) as [[| |d|]|]; reflexivity.
Qed.

Lemma attachDirSync_pointer `{Helpers} (searchRequest searchRequest0 : SearchRequest.t)
    (i : nat) :
  attachDirSync searchRequest = inl (i, searchRequest0) ->
  exists c0, dirSyncCookie i searchRequest0 = Some c0.
Proof.
  unfold attachDirSync, dirSyncCookie.
  destruct (FindControl _ _) as [c|] eqn:Hf.
  - apply FindControl_index in Hf as (j & Hj & Hl).
    destruct c; try discriminate.
    intros [= <- <-]. rewrite Hj. cbn. rewrite Hl. eauto.
  - intros [= <- <-]. destruct searchRequest as [? ? ? ? ? ? ? ? cs]. cbn.
    rewrite lookup_app_r by lia. rewrite Nat.sub_diag. cbn. eauto.
Qed.

(** ** One round of the loop *)

Lemma length_zero_false {A : Type} (xs : list A) :
  xs <> [] -> bool_decide (length xs = 0%nat) = false.
Proof.
  intros Hne. apply bool_decide_eq_false_2. destruct xs; [done | discriminate].
Qed.

Lemma dirSyncLoop_continue (fuel i : nat) (searchRequest : SearchRequest.t)
    (searchResult result : SearchResult.t) (l l' : Conn)
    (d : ControlMicrosoftDirSyncResponse) :
  Search searchRequest l = (Some result, None, l') ->
  FindControl (SearchResult.Controls result) ControlTypeMicrosoftDirSync
    = Some (CMicrosoftDirSyncResponse d) ->
  Cookie d <> [] ->
  MoreResults d <> 0 ->
  dirSyncLoop (S fuel) i searchRequest searchResult l
  = dirSyncLoop fuel i (throughPointer (SetCookie (Cookie d)) i searchRequest)
      (appendResult searchResult result) l'.
Proof.
  intros HS HF HC HM. cbn [dirSyncLoop]. rewrite HS, HF.
  rewrite (length_zero_false _ HC).
  rewrite bool_decide_eq_false_2 by exact HM. reflexivity.
Qed.

Lemma dirSyncLoop_rounds (i : nat) (searchRequest searchRequest' : SearchRequest.t)
    (l l' : Conn) (rounds : list (SearchResult.t * ControlMicrosoftDirSyncResponse)) :
  Rounds i searchRequest l rounds searchRequest' l' ->
  forall (fuel : nat) (searchResult : SearchResult.t),
    dirSyncLoop (length rounds + fuel) i searchRequest searchResult l
    = dirSyncLoop fuel i searchRequest'
        (accumulate searchResult (map fst rounds)) l'.
Proof.
  induction 1 as [|req l0 result d l1 rest req'' l'' HS HF HC HM _ IH];
    intros fuel acc.
  - reflexivity.
  - cbn [length Nat.add]. rewrite (dirSyncLoop_continue _ _ _ _ _ _ _ _ HS HF HC HM).
    rewrite IH. reflexivity.
Qed.

Lemma Rounds_trace (i : nat) (searchRequest searchRequest' : SearchRequest.t)
    (l l' : Conn) (rounds : list (SearchResult.t * ControlMicrosoftDirSyncResponse)) :
  Rounds i searchRequest l rounds searchRequest' l' ->
  forall c0 : list byte,
    dirSyncCookie i searchRequest = Some c0 ->
    exists issued : list SearchRequest.t,
      searches l' = searches l ++ issued
      /\ map (dirSyncCookie i) (issued ++ [searchRequest'])
         = map Some (c0 :: map (fun rd => Cookie (snd rd)) rounds).
Proof.
  induction 1 as [req l0|req l0 result d l1 rest req'' l'' HS HF HC HM _ IH];
    intros c0 Hc0.
  - exists []. rewrite app_nil_r. cbn. rewrite Hc0. split; reflexivity.
  - destruct (IH (Cookie d) (dirSyncCookie_SetCookie _ _ _ _ Hc0))
      as (issued & Hlog & Hcookies).
    exists (req :: issued). split.
    + rewrite Hlog. unfold Search in HS. injection HS as _ <-. cbn.
      rewrite <- app_assoc. reflexivity.
    + cbn. rewrite Hc0. cbn in Hcookies. rewrite Hcookies. reflexivity.
Qed.

Lemma accumulate_snoc (searchResult result : SearchResult.t)
    (results : list SearchResult.t) :
  accumulate searchResult (results ++ [result])
  = appendResult (accumulate searchResult results) result.
Proof. unfold accumulate. rewrite foldl_app. reflexivity. Qed.

(** ** The whole driver *)

Lemma SearchWithDirSync_reaches `{Helpers} (searchRequest searchRequest' : SearchRequest.t)
    (cookie : list byte) (flags : Z) (l l' : Conn) (i : nat)
    (rounds : list (SearchResult.t * ControlMicrosoftDirSyncResponse)) :
  Reaches searchRequest cookie flags l i rounds searchRequest' l' ->
  forall fuel : nat,
    (length rounds < fuel)%nat ->
    exists k : nat,
      SearchWithDirSync fuel searchRequest cookie flags l
      = dirSyncLoop (S k) i searchRequest'
          (accumulate SearchResult.new (map fst rounds)) l'.
Proof.
  intros (req0 & Hat & HR) fuel Hfuel.
  exists (fuel - length rounds - 1)%nat.
  unfold SearchWithDirSync. rewrite Hat.
  replace fuel with (length rounds + S (fuel - length rounds - 1))%nat at 1
    by lia.
  apply dirSyncLoop_rounds. exact HR.
Qed.

Lemma Reaches_trace `{Helpers} (searchRequest searchRequest' : SearchRequest.t)
    (cookie : list byte) (flags : Z) (l l' : Conn) (i : nat)
    (rounds : list (SearchResult.t * ControlMicrosoftDirSyncResponse)) :
  Reaches searchRequest cookie flags l i rounds searchRequest' l' ->
  exists issued : list SearchRequest.t,
    searches l' = (searches l ++ issued)%list
    /\ map (dirSyncCookie i) (issued ++ [searchRequest'])
       = map Some (cookie :: map (fun rd => Cookie (snd rd)) rounds).
Proof.
  intros (req0 & Hat & HR).
  apply (Rounds_trace _ _ _ _ _ _ HR).
  rewrite dirSyncCookie_SetFlags.
  destruct (attachDirSync_pointer _ _ _ Hat) as [c0 Hc0].
  exact (dirSyncCookie_SetCookie _ _ _ _ Hc0).
Qed.

(** C1 (as stated, refuted). After one continuing round the peer sends
    a DirSync control with an empty cookie and more-results 0: the driver
    fails, and the failure carries the network result code, so it is in
    the class of network failures and not a protocol violation. *)
Lemma empty_cookie_is_network_error :
  exists (partial : SearchResult.t) (searchRequest' : SearchRequest.t) (l' : Conn),
    SearchWithDirSync 5 plainSearch [] 0 emptyCookieConn
    = Some (Ret (Some partial, None,
                 Some (NewError ErrorNetwork
                         (errors_New
                            "ldap: empty cookie in DirSync control response")),
                 searchRequest', l'))
    /\ errorClass
         (NewError ErrorNetwork
            (errors_New "ldap: empty cookie in DirSync control response"))
       = Some NetworkError
    /\ errorClass
         (NewError ErrorNetwork
            (errors_New "ldap: empty cookie in DirSync control response"))
       <> Some ProtocolViolationError.
Proof.
  eexists _, _, _. split; [vm_compute; reflexivity|].
  split; [reflexivity | discriminate].
Qed.

(** C1 (amended). At every round, a DirSync response control with an
    empty cookie makes the driver stop and return an error with result
    code [ErrorNetwork] and the text "ldap: empty cookie in DirSync
    control response", whatever the more-results indicator says; no
    cookie is returned. *)
Theorem SearchWithDirSync_empty_cookie_fails `{Helpers}
    (fuel : nat) (searchRequest searchRequest' : SearchRequest.t)
    (cookie : list byte) (flags : Z) (l lN l' : Conn) (i : nat)
    (rounds : list (SearchResult.t * ControlMicrosoftDirSyncResponse))
    (result : SearchResult.t) (d : ControlMicrosoftDirSyncResponse) :
  Reaches searchRequest cookie flags l i rounds searchRequest' lN ->
  (length rounds < fuel)%nat ->
  Search searchRequest' lN = (Some result, None, l') ->
  FindControl (SearchResult.Controls result) ControlTypeMicrosoftDirSync
    = Some (CMicrosoftDirSyncResponse d) ->
  Cookie d = [] ->
  SearchWithDirSync fuel searchRequest cookie flags l
  = Some (Ret (Some (accumulate SearchResult.new (map fst rounds ++ [result])),
               None,
               Some (NewError ErrorNetwork
                       (errors_New
                          "ldap: empty cookie in DirSync control response")),
               searchRequest', l')).
Proof.
  intros HR Hfuel HS HF HC.
  destruct (SearchWithDirSync_reaches _ _ _ _ _ _ _ _ HR fuel Hfuel) as [k ->].
  cbn [dirSyncLoop]. rewrite HS, HF, HC. cbn [length].
  rewrite bool_decide_eq_true_2 by reflexivity.
  rewrite accumulate_snoc. reflexivity.
Qed.

Lemma SearchWithDirSync_empty_cookie_fails_witness :
  exists (partial : SearchResult.t) (searchRequest' : SearchRequest.t) (l' : Conn),
    SearchWithDirSync 5 plainSearch [] 0 emptyCookieConn
    = Some (Ret (Some partial, None,
                 Some (NewError ErrorNetwork
                         (errors_New
                            "ldap: empty cookie in DirSync control response")),
                 searchRequest', l'))
    /\ map (fmap Entry.DN) (SearchResult.Entries partial)
       = [Some "cn=a"; Some "cn=b"].
Proof.
  eexists _, _, _. split.
  - eapply (SearchWithDirSync_empty_cookie_fails 5 plainSearch _ [] 0
              emptyCookieConn _ _ 0%nat
              [(stubRound "cn=a" 1 cookieA,
                {| MoreResults := 1; Cookie := cookieA |})]
              (stubRound "cn=b" 0 [])
              {| MoreResults := 0; Cookie := [] |}).
    + eexists. split; [reflexivity|].
      eapply Rounds_more;
        [reflexivity | reflexivity | discriminate | discriminate
        | apply Rounds_done].
    + cbn. lia.
    + reflexivity.
    + reflexivity.
    + reflexivity.
  - reflexivity.
Defined.

(** C3 (as stated, refuted). The first round's response control has
    more-results 1 and an empty cookie: the driver does not go on to a
    next round, it stops with an error after this one search. *)
Lemma more_results_without_cookie_stops :
  FindControl (SearchResult.Controls (stubRound "cn=a" 1 []))
    ControlTypeMicrosoftDirSync
  = Some (CMicrosoftDirSyncResponse {| MoreResults := 1; Cookie := [] |})
  /\ exists (partial : SearchResult.t) (searchRequest' : SearchRequest.t)
            (l' : Conn),
       SearchWithDirSync 5 plainSearch [] 0 moreWithoutCookieConn
       = Some (Ret (Some partial, None,
                    Some (NewError ErrorNetwork
                            (errors_New
                               "ldap: empty cookie in DirSync control response")),
                    searchRequest', l'))
       /\ length (searches l') = 1%nat.
Proof.
  split; [reflexivity|].
  eexists _, _, _. split; [vm_compute; reflexivity | reflexivity].
Qed.

(** C3 (amended). Through any number of rounds whose DirSync response
    control has a non-zero more-results indicator and a non-empty cookie,
    the driver goes on, and the requests it issues carry, in order, the
    caller's cookie and then each cookie the server supplied; the first
    round whose more-results indicator is zero, with a non-empty cookie,
    ends the loop, and the cookie returned is that round's cookie, with
    the data of all rounds and no error. *)
Theorem SearchWithDirSync_threads_cookie `{Helpers}
    (fuel : nat) (searchRequest searchRequest' : SearchRequest.t)
    (cookie : list byte) (flags : Z) (l lN l' : Conn) (i : nat)
    (rounds : list (SearchResult.t * ControlMicrosoftDirSyncResponse))
    (result : SearchResult.t) (d : ControlMicrosoftDirSyncResponse) :
  Reaches searchRequest cookie flags l i rounds searchRequest' lN ->
  (length rounds < fuel)%nat ->
  Search searchRequest' lN = (Some result, None, l') ->
  FindControl (SearchResult.Controls result) ControlTypeMicrosoftDirSync
    = Some (CMicrosoftDirSyncResponse d) ->
  Cookie d <> [] ->
  MoreResults d = 0 ->
  SearchWithDirSync fuel searchRequest cookie flags l
  = Some (Ret (Some (accumulate SearchResult.new (map fst rounds ++ [result])),
               Some (Cookie d), None, searchRequest', l'))
  /\ exists issued : list SearchRequest.t,
       searches l' = (searches l ++ issued)%list
       /\ map (dirSyncCookie i) issued
          = map Some (cookie :: map (fun rd => Cookie (snd rd)) rounds).
Proof.
  intros HR Hfuel HS HF HC HM. split.
  - destruct (SearchWithDirSync_reaches _ _ _ _ _ _ _ _ HR fuel Hfuel) as [k ->].
    cbn [dirSyncLoop]. rewrite HS, HF.
    rewrite (length_zero_false _ HC).
    rewrite bool_decide_eq_true_2 by exact HM.
    rewrite accumulate_snoc. reflexivity.
  - destruct (Reaches_trace _ _ _ _ _ _ _ _ HR) as (issued & Hlog & Hcookies).
    exists (issued ++ [searchRequest']). split; [|exact Hcookies].
    unfold Search in HS. injection HS as _ <-. cbn.
    rewrite Hlog, <- app_assoc. reflexivity.
Qed.

Lemma SearchWithDirSync_threads_cookie_witness :
  exists (total : SearchResult.t) (searchRequest' : SearchRequest.t) (l' : Conn),
    SearchWithDirSync 5 plainSearch [] 7 twoRoundConn
    = Some (Ret (Some total, Some cookieB, None, searchRequest', l'))
    /\ map (fmap Entry.DN) (SearchResult.Entries total)
       = [Some "cn=a"; Some "cn=b"]
    /\ map (dirSyncCookie 0) (searches l') = [Some []; Some cookieA].
Proof.
  pose (req1 := throughPointer (SetFlags 7) 0
                  (throughPointer (SetCookie []) 0
                     (SearchRequest.withControls
                        [CMicrosoftDirSync NewControlMicrosoftDirSync]
                        plainSearch))).
  pose (req2 := throughPointer (SetCookie cookieA) 0 req1).
  pose (l1 := snd (Search req1 twoRoundConn)).
  pose (l2 := snd (Search req2 l1)).
  destruct (SearchWithDirSync_threads_cookie 5 plainSearch req2
              [] 7 twoRoundConn l1 l2 0%nat
              [(stubRound "cn=a" 1 cookieA,
                {| MoreResults := 1; Cookie := cookieA |})]
              (stubRound "cn=b" 0 cookieB)
              {| MoreResults := 0; Cookie := cookieB |})
    as [Hret (issued & Hlog & Hcookies)].
  - eexists. split; [reflexivity|].
    eapply Rounds_more;
      [reflexivity | reflexivity | discriminate | discriminate
      | apply Rounds_done].
  - cbn. lia.
  - reflexivity.
  - reflexivity.
  - discriminate.
  - reflexivity.
  - eexists _, _, _. split; [exact Hret|]. split; [reflexivity|].
    rewrite Hlog. cbn [twoRoundConn stubConn searches app]. exact Hcookies.
Defined.

(** C4 (as stated, refuted). The very first round returns an entry and
    no DirSync control: no round was completed before the failing one,
    yet the partial result handed back is not empty, it holds the failing
    round's entry. *)
Lemma failing_round_data_is_kept :
  exists (searchRequest' : SearchRequest.t) (l' : Conn),
    SearchWithDirSync 5 plainSearch [] 0 missingControlConn
    = Some (Ret (Some noControlRound, None,
                 Some (NewError ErrorNetwork
                         (errors_New
                            "ldap: response is missing DirSync control")),
                 searchRequest', l'))
    /\ Reaches plainSearch [] 0 missingControlConn 0 [] searchRequest'
         missingControlConn
    /\ Some noControlRound
       <> Some (accumulate SearchResult.new
                  (map fst ([] : list (SearchResult.t
                                       * ControlMicrosoftDirSyncResponse)))).
Proof.
  eexists _, _. split; [vm_compute; reflexivity|]. split.
  - eexists. split; [reflexivity | apply Rounds_done].
  - discriminate.
Qed.

(** C4 (amended). At every round, a failure makes the driver stop and
    return the failure together with a partial result and no cookie: for
    a search error or a nil result, the data of the rounds before; for a
    missing DirSync response control or an empty cookie, the data of the
    rounds before followed by the failing round's own entries, referrals
    and controls. *)
Theorem SearchWithDirSync_failure_returns_partial `{Helpers}
    (fuel : nat) (searchRequest searchRequest' : SearchRequest.t)
    (cookie : list byte) (flags : Z) (l lN l' : Conn) (i : nat)
    (rounds : list (SearchResult.t * ControlMicrosoftDirSyncResponse))
    (result : option SearchResult.t) (err : option error) :
  Reaches searchRequest cookie flags l i rounds searchRequest' lN ->
  (length rounds < fuel)%nat ->
  Search searchRequest' lN = (result, err, l') ->
  let before := accumulate SearchResult.new (map fst rounds) in
  let returns partial e :=
    SearchWithDirSync fuel searchRequest cookie flags l
    = Some (Ret (Some partial, None, Some e, searchRequest', l')) in
  (forall e, err = Some e -> returns before e)
  /\ (err = None -> result = None ->
      returns before
        (NewError ErrorNetwork (errors_New "ldap: packet not received")))
  /\ (forall r, err = None -> result = Some r ->
      FindControl (SearchResult.Controls r) ControlTypeMicrosoftDirSync = None ->
      returns (appendResult before r)
        (NewError ErrorNetwork
           (errors_New "ldap: response is missing DirSync control")))
  /\ (forall r d, err = None -> result = Some r ->
      FindControl (SearchResult.Controls r) ControlTypeMicrosoftDirSync
        = Some (CMicrosoftDirSyncResponse d) ->
      Cookie d = [] ->
      returns (appendResult before r)
        (NewError ErrorNetwork
           (errors_New "ldap: empty cookie in DirSync control response"))).
Proof.
  intros HR Hfuel HS before returns. subst returns. cbv beta.
  destruct (SearchWithDirSync_reaches _ _ _ _ _ _ _ _ HR fuel Hfuel) as [k ->].
  cbn [dirSyncLoop]. rewrite HS. fold before.
  repeat split.
  - intros e ->. reflexivity.
  - intros -> ->. reflexivity.
  - intros r -> -> HF. rewrite HF. reflexivity.
  - intros r d -> -> HF HC. rewrite HF, HC. reflexivity.
Qed.

Lemma SearchWithDirSync_failure_returns_partial_witness :
  exists (partial : SearchResult.t) (searchRequest' : SearchRequest.t) (l' : Conn),
    SearchWithDirSync 5 plainSearch [] 0 laterMissingControlConn
    = Some (Ret (Some partial, None,
                 Some (NewError ErrorNetwork
                         (errors_New
                            "ldap: response is missing DirSync control")),
                 searchRequest', l'))
    /\ map (fmap Entry.DN) (SearchResult.Entries partial)
       = [Some "cn=a"; Some "cn=a"].
Proof.
  eexists _, _, _. split.
  - eapply (SearchWithDirSync_failure_returns_partial 5 plainSearch _ [] 0
              laterMissingControlConn _ _ 0%nat
              [(stubRound "cn=a" 1 cookieA,
                {| MoreResults := 1; Cookie := cookieA |})]
              (Some noControlRound) None).
    + eexists. split; [reflexivity|].
      eapply Rounds_more;
        [reflexivity | reflexivity | discriminate | discriminate
        | apply Rounds_done].
    + cbn. lia.
    + reflexivity.
    + reflexivity.
    + reflexivity.
    + reflexivity.
  - reflexivity.
Defined.

(** X1. The request-side extraction is a checked one: any control of
    another type found under the DirSync OID yields an error, and no
    search is issued. *)
Lemma SearchWithDirSync_request_mismatch `{Helpers} (fuel : nat)
    (searchRequest : SearchRequest.t) (cookie : list byte) (flags : Z)
    (l : Conn) (control : Control) :
  FindControl (SearchRequest.Controls searchRequest)
    ControlTypeMicrosoftDirSync = Some control ->
  (forall d, control <> CMicrosoftDirSync d) ->
  SearchWithDirSync fuel searchRequest cookie flags l
  = Some (Ret (None, None,
               Some (fmt_Errorf_v
                       "expected dirSync control to be of type *ControlMicrosoftDirSync, got %v"
                       control),
               searchRequest, l)).
Proof.
  intros HF Hne. unfold SearchWithDirSync, attachDirSync. rewrite HF.
  destruct control as [c|c|c|c]; try reflexivity.
  destruct (Hne c eq_refl).
Qed.

(** The response-side extraction is an unchecked assertion: at any
    round, a control of another type found under the DirSync OID makes
    the driver panic. *)
Lemma dirSyncLoop_response_mismatch (fuel i : nat)
    (searchRequest : SearchRequest.t) (searchResult result : SearchResult.t)
    (l l' : Conn) (control : Control) :
  Search searchRequest l = (Some result, None, l') ->
  FindControl (SearchResult.Controls result) ControlTypeMicrosoftDirSync
    = Some control ->
  (forall d, control <> CMicrosoftDirSyncResponse d) ->
  dirSyncLoop (S fuel) i searchRequest searchResult l = Some Panic.
Proof.
  intros HS HF Hne. cbn [dirSyncLoop]. rewrite HS, HF.
  destruct control as [c|c|c|c]; try reflexivity.
  destruct (Hne c eq_refl).
Qed.

(** C6 (the code at the failing input). The peer answers the first
    search with an opaque control under the DirSync OID: the request-side
    extraction had passed, the response-side one panics. *)
Theorem SearchWithDirSync_response_assertion_panics :
  FindControl [opaqueDirSync] ControlTypeMicrosoftDirSync = Some opaqueDirSync
  /\ SearchWithDirSync 5 plainSearch [] 0 wrongVariantConn = Some Panic.
Proof. split; vm_compute; reflexivity. Qed.

(** ** Simple bind *)

(** Submitting a request on an open connection takes a message ID and
    writes exactly one envelope. *)
Lemma doRequest_submits `{BerCodec} {A : Type} `{request A} (req : A) (l : Conn)
    (msgCtx : messageContext) (l1 : Conn) :
  doRequest req l = (Some msgCtx, None, l1) ->
  exists envelope : Packet,
    written l1 = (written l ++ [envelope])%list
    /\ messageID l1 = wrap_int64 (messageID l + 1).
Proof.
  unfold doRequest. cbn.
  destruct (appendTo req _) as [packet [e|]]; [discriminate|].
  unfold sendMessage. cbn. destruct (isClosing l); [discriminate|].
  intros [= _ <-]. cbn. eauto.
Qed.

(** C2. A simple bind with an empty password and without the opt-in
    fails with the empty-password error, a client-misuse error, and
    leaves the connection as it was: nothing is written to the transport,
    no message ID is taken and nothing is registered. *)
Theorem SimpleBind_rejects_empty_password `{BerCodec} `{Helpers}
    (simpleBindRequest : SimpleBindRequest.t) (l : Conn) :
  SimpleBindRequest.Password simpleBindRequest = "" ->
  SimpleBindRequest.AllowEmptyPassword simpleBindRequest = false ->
  exists (err : error) (l' : Conn),
    SimpleBind simpleBindRequest l = Ret (None, Some err, l')
    /\ err = NewError ErrorEmptyPassword
               (errors_New "ldap: empty password not allowed by the client")
    /\ errorClass err = Some ClientMisuseError
    /\ written l' = written l
    /\ messageID l' = messageID l
    /\ pending l' = pending l.
Proof.
  intros Hpw Hallow. eexists _, l. unfold SimpleBind.
  rewrite Hpw, Hallow. cbn. repeat split; reflexivity.
Qed.

Lemma SimpleBind_rejects_empty_password_witness :
  exists (err : error) (l' : Conn),
    SimpleBind emptyPasswordBind acceptingConn = Ret (None, Some err, l')
    /\ written l' = [] /\ messageID l' = 1.
Proof.
  destruct (SimpleBind_rejects_empty_password emptyPasswordBind acceptingConn
              eq_refl eq_refl)
    as (err & l' & Hret & _ & _ & Hw & Hid & _).
  exists err, l'. split; [exact Hret|]. split; [exact Hw | exact Hid].
Defined.

(** X18. [Bind] never opts in, so it refuses an empty password the
    same way. *)
Lemma Bind_rejects_empty_password `{BerCodec} `{Helpers} (username : string)
    (l : Conn) :
  Bind username "" l
  = Ret (Some (NewError ErrorEmptyPassword
                 (errors_New "ldap: empty password not allowed by the client")),
         l).
Proof. reflexivity. Qed.

(** C8. The bind request appended to an envelope is an application-tagged
    constructed packet with tag 0 whose children are, in order, the
    integer 3, the user name as an octet string and the password as a
    context-class primitive with tag 0; the controls follow it in the
    envelope only when the request has at least one. *)
Theorem SimpleBindRequest_appendTo_shape `{BerCodec} `{Helpers}
    (req : SimpleBindRequest.t) (envelope : Packet) :
  exists pkt envelope' : Packet,
    SimpleBindRequest_appendTo req envelope = (envelope', None)
    /\ ClassType pkt = ClassApplication
    /\ TagType pkt = TypeConstructed
    /\ Tag pkt = ApplicationBindRequest
    /\ Children pkt
       = [Some {| ClassType := ClassUniversal; TagType := TypePrimitive;
                  Tag := TagInteger; Value := VInt 3;
                  Data := encodeInteger 3; Children := [];
                  Description := "Version" |};
          Some {| ClassType := ClassUniversal; TagType := TypePrimitive;
                  Tag := TagOctetString;
                  Value := VString (SimpleBindRequest.Username req);
                  Data := list_byte_of_string (SimpleBindRequest.Username req);
                  Children := []; Description := "User Name" |};
          Some {| ClassType := ClassContext; TagType := TypePrimitive;
                  Tag := 0;
                  Value := VString (SimpleBindRequest.Password req);
                  Data := list_byte_of_string (SimpleBindRequest.Password req);
                  Children := []; Description := "Password" |}]
    /\ Children envelope'
       = (Children envelope
          ++ Some pkt
             :: match SimpleBindRequest.Controls req with
                | [] => []
                | _ :: _ => [Some (encodeControls (SimpleBindRequest.Controls req))]
                end)%list.
Proof.
  unfold SimpleBindRequest_appendTo.
  match goal with |- context [AppendChild envelope ?p] => exists p end.
  eexists. split; [reflexivity|].
  do 4 (split; [reflexivity|]).
  destruct (SimpleBindRequest.Controls req) as [|c cs]; cbn.
  - reflexivity.
  - rewrite <- app_assoc. reflexivity.
Qed.

Lemma guard_passes (simpleBindRequest : SimpleBindRequest.t) :
  (SimpleBindRequest.Password simpleBindRequest = "" ->
   SimpleBindRequest.AllowEmptyPassword simpleBindRequest = true) ->
  bool_decide (SimpleBindRequest.Password simpleBindRequest = "")
  && negb (SimpleBindRequest.AllowEmptyPassword simpleBindRequest) = false.
Proof.
  intros Hguard. destruct (bool_decide_reflect
    (SimpleBindRequest.Password simpleBindRequest = "")) as [Hpw|Hpw].
  - rewrite (Hguard Hpw). reflexivity.
  - reflexivity.
Qed.

(** Once the response envelope has arrived, the outcome of [SimpleBind]
    is that of decoding its controls, followed by the validation of its
    result code. *)
Lemma SimpleBind_on_response `{BerCodec} `{Helpers}
    (simpleBindRequest : SimpleBindRequest.t) (l l1 : Conn)
    (msgCtx : messageContext) (packet : Packet) :
  (SimpleBindRequest.Password simpleBindRequest = "" ->
   SimpleBindRequest.AllowEmptyPassword simpleBindRequest = true) ->
  doRequest simpleBindRequest l = (Some msgCtx, None, l1) ->
  readPacket msgCtx l1 = (Some packet, None) ->
  SimpleBind simpleBindRequest l
  = do* decoded <- decodeResponseControls packet [];
    match decoded with
    | inr err => Ret (None, Some err, finishMessage msgCtx l1)
    | inl controls =>
        Ret (Some (SimpleBindResult.mk controls), GetLDAPError (Some packet),
             finishMessage msgCtx l1)
    end.
Proof.
  intros Hguard Hdo Hread. unfold SimpleBind.
  rewrite (guard_passes _ Hguard), Hdo, Hread. reflexivity.
Qed.

Lemma GetLDAPError_shape (packet : Packet) (code : Z) (diagnostic : string)
    (rest : list (option Packet)) :
  responseShape packet = Some (code, diagnostic, rest) ->
  GetLDAPError (Some packet)
  = if decide (code = 0) then None
    else Some (NewError code (errors_New diagnostic)).
Proof.
  unfold responseShape, GetLDAPError.
  destruct (Children packet !! 1%nat) as [[response|]|]; try discriminate.
  destruct (ClassType response); try discriminate.
  destruct (TagType response); try discriminate.
  destruct (Children response) as [|[c0|] [|c1 [|[c2|] more]]]; try discriminate.
  destruct (Value c0); try discriminate.
  destruct (Value c2); try discriminate.
  intros [= -> -> ->]. reflexivity.
Qed.

Lemma decodeChildren_inl `{Helpers} (children : list (option Packet)) :
  forall controls decoded : list Control,
    decodeChildren children controls = inl decoded ->
    exists fresh : list Control,
      decoded = (controls ++ fresh)%list
      /\ Forall2 (fun child c => DecodeControl child = inl c) children fresh.
Proof.
  induction children as [|child rest IH]; intros controls decoded Hdec.
  - cbn in Hdec. injection Hdec as <-. exists []. rewrite app_nil_r.
    split; [reflexivity | constructor].
  - cbn in Hdec. destruct (DecodeControl child) as [c|e] eqn:Hc;
      [|discriminate].
    apply IH in Hdec as (fresh & -> & Hall). exists (c :: fresh). split.
    + rewrite <- app_assoc. reflexivity.
    + constructor; assumption.
Qed.

Lemma decodeChildren_inr `{Helpers} (before after : list (option Packet))
    (child : option Packet) (decodeErr : error) :
  forall controls : list Control,
    Forall (fun p => exists c, DecodeControl p = inl c) before ->
    DecodeControl child = inr decodeErr ->
    decodeChildren (before ++ child :: after) controls
    = inr (fmt_Errorf "failed to decode child control: %s" decodeErr).
Proof.
  induction before as [|p before IH]; intros controls Hbefore Hchild.
  - cbn. rewrite Hchild. reflexivity.
  - apply Forall_cons in Hbefore as [(c & Hc) Hbefore]. cbn. rewrite Hc.
    apply IH; assumption.
Qed.

Lemma decodeChildren_all `{Helpers} (children : list (option Packet)) :
  forall controls fresh : list Control,
    Forall2 (fun child c => DecodeControl child = inl c) children fresh ->
    decodeChildren children controls = inl (controls ++ fresh)%list.
Proof.
  induction children as [|child rest IH]; intros controls fresh Hall.
  - inversion Hall; subst. cbn. rewrite app_nil_r. reflexivity.
  - inversion Hall as [|? c ? fresh' Hc Hrest]; subst. cbn. rewrite Hc.
    rewrite (IH _ _ Hrest), <- app_assoc. reflexivity.
Qed.

Lemma decodeResponseControls_decoded `{Helpers} (packet : Packet)
    (controls : list Control) :
  controlsDecodeTo packet controls ->
  decodeResponseControls packet [] = Ret (inl controls).
Proof.
  unfold decodeResponseControls.
  intros [[Hlen ->] | (Hlen & section & Hsection & Hall)].
  - rewrite decide_False by exact Hlen. reflexivity.
  - rewrite decide_True by exact Hlen. rewrite Hsection. cbn [deref go_bind].
    rewrite (decodeChildren_all _ _ _ Hall). reflexivity.
Qed.

(** C7 (as stated, refuted). The server refuses a bind with result
    code 49 and sends a control that does not decode: the call returns
    the decode error, which carries neither the code nor the server's
    diagnostic text and has no error class. And an error made from the
    server's result code 200 is classed with the network failures. *)
Lemma nonzero_code_without_result_code_error :
  responseShape refusalWithBrokenControl
  = Some (49, "invalid credentials", [])
  /\ 49 <> 0
  /\ (exists l' : Conn,
        SimpleBind adminBind refusingBrokenConn
        = Ret (None,
               Some (fmt_Errorf "failed to decode child control: %s"
                       (errors_New "control has no type")),
               l'))
  /\ errorClass (fmt_Errorf "failed to decode child control: %s"
                   (errors_New "control has no type"))
     <> Some ResultCodeError
  /\ (exists l' : Conn,
        SimpleBind adminBind refusingWith200Conn
        = Ret (Some (SimpleBindResult.mk []),
               Some (NewError 200 (errors_New "busy")), l'))
  /\ errorClass (NewError 200 (errors_New "busy")) = Some NetworkError.
Proof.
  split; [reflexivity|]. split; [discriminate|].
  split; [eexists; vm_compute; reflexivity|].
  split; [discriminate|].
  split; [eexists; vm_compute; reflexivity | reflexivity].
Qed.

(** C7 (amended). For a simple bind whose response envelope has
    arrived: response controls are decoded only when the envelope has a
    controls section (exactly three children), and the result then holds
    the decoded children of the third child, in order; without a
    controls section nothing is decoded and a result code 0 is a success
    with an empty controls list; when the controls decode, a non-zero
    result code becomes an error carrying the code and the server's
    diagnostic text, of the class of result-code errors unless the code
    is one of the client-side codes; when a control fails to decode, the
    call returns no result and the decode error, whatever the result
    code. *)
Theorem SimpleBind_decodes_and_validates `{BerCodec} `{Helpers}
    (simpleBindRequest : SimpleBindRequest.t) (l l1 : Conn)
    (msgCtx : messageContext) (packet : Packet) :
  (SimpleBindRequest.Password simpleBindRequest = "" ->
   SimpleBindRequest.AllowEmptyPassword simpleBindRequest = true) ->
  doRequest simpleBindRequest l = (Some msgCtx, None, l1) ->
  readPacket msgCtx l1 = (Some packet, None) ->
  let l' := finishMessage msgCtx l1 in
  (forall controls : list Control,
     controlsDecodeTo packet controls ->
     SimpleBind simpleBindRequest l
     = Ret (Some (SimpleBindResult.mk controls), GetLDAPError (Some packet),
            l'))
  /\ (forall (diagnostic : string) (rest : list (option Packet)),
        length (Children packet) <> 3%nat ->
        responseShape packet = Some (0, diagnostic, rest) ->
        SimpleBind simpleBindRequest l
        = Ret (Some (SimpleBindResult.mk []), None, l'))
  /\ (forall (code : Z) (diagnostic : string) (rest : list (option Packet))
             (controls : list Control),
        responseShape packet = Some (code, diagnostic, rest) ->
        code <> 0 ->
        controlsDecodeTo packet controls ->
        SimpleBind simpleBindRequest l
        = Ret (Some (SimpleBindResult.mk controls),
               Some (NewError code (errors_New diagnostic)), l')
        /\ (code <> ErrorNetwork -> code <> ErrorUnexpectedResponse ->
            code <> ErrorEmptyPassword ->
            errorClass (NewError code (errors_New diagnostic))
            = Some ResultCodeError))
  /\ (forall (section : Packet) (before after : list (option Packet))
             (child : option Packet) (decodeErr : error),
        length (Children packet) = 3%nat ->
        Children packet !! 2%nat = Some (Some section) ->
        Children section = (before ++ child :: after)%list ->
        Forall (fun p => exists c, DecodeControl p = inl c) before ->
        DecodeControl child = inr decodeErr ->
        SimpleBind simpleBindRequest l
        = Ret (None,
               Some (fmt_Errorf "failed to decode child control: %s"
                       decodeErr),
               l')).
Proof.
  intros Hguard Hdo Hread l'.
  pose proof (SimpleBind_on_response _ _ _ _ _ Hguard Hdo Hread) as Hbind.
  fold l' in Hbind.
  split; [|split; [|split]].
  - intros controls Hdecoded. rewrite Hbind.
    rewrite (decodeResponseControls_decoded _ _ Hdecoded). reflexivity.
  - intros diagnostic rest Hlen Hshape. rewrite Hbind.
    rewrite (decodeResponseControls_decoded packet []) by (left; auto).
    cbn [go_bind]. rewrite (GetLDAPError_shape _ _ _ _ Hshape). reflexivity.
  - intros code diagnostic rest controls Hshape Hcode Hdecoded. split.
    + rewrite Hbind. rewrite (decodeResponseControls_decoded _ _ Hdecoded).
      cbn [go_bind]. rewrite (GetLDAPError_shape _ _ _ _ Hshape).
      rewrite decide_False by exact Hcode. reflexivity.
    + intros Hn Hu Hp. unfold errorClass.
      rewrite !decide_False by assumption. reflexivity.
  - intros section before after child decodeErr Hlen Hsection Hsplit
      Hbefore Hchild.
    rewrite Hbind. unfold decodeResponseControls.
    rewrite decide_True by exact Hlen. rewrite Hsection.
    cbn [deref go_bind]. rewrite Hsplit.
    rewrite (decodeChildren_inr _ _ _ _ _ Hbefore Hchild). reflexivity.
Qed.

Lemma SimpleBind_decodes_and_validates_witness :
  exists l' : Conn,
    SimpleBind adminBind acceptingWithControlsConn
    = Ret (Some (SimpleBindResult.mk
                   [CString {| ControlType := ControlTypePaging;
                               Criticality := false; ControlValue := "" |};
                    CString {| ControlType := ControlTypeMicrosoftDirSync;
                               Criticality := false; ControlValue := "" |}]),
           None, l').
Proof.
  pose (ctx := {| id := 1 |}).
  pose (l1 := snd (doRequest adminBind acceptingWithControlsConn)).
  destruct (SimpleBind_decodes_and_validates adminBind
              acceptingWithControlsConn l1 ctx acceptanceWithControls)
    as (Hdecoded & _).
  - discriminate.
  - reflexivity.
  - reflexivity.
  - exists (finishMessage ctx l1). apply Hdecoded.
    right. split; [reflexivity|]. eexists. split; [reflexivity|].
    repeat constructor.
Defined.

(** C10. With the guard passed: when the response envelope has arrived
    and its controls decoded, [SimpleBind] returns a result holding the
    decoded controls together with whatever the validation of the result
    code yields, so for a non-zero result code the result comes with the
    error; and a nil result is returned only when submitting the request
    failed, when reading the response failed, or when a control failed to
    decode. *)
Theorem SimpleBind_keeps_result_on_error `{BerCodec} `{Helpers}
    (simpleBindRequest : SimpleBindRequest.t) (l : Conn) :
  (SimpleBindRequest.Password simpleBindRequest = "" ->
   SimpleBindRequest.AllowEmptyPassword simpleBindRequest = true) ->
  (forall (msgCtx : messageContext) (l1 : Conn) (packet : Packet)
          (controls : list Control),
     doRequest simpleBindRequest l = (Some msgCtx, None, l1) ->
     readPacket msgCtx l1 = (Some packet, None) ->
     decodeResponseControls packet [] = Ret (inl controls) ->
     SimpleBind simpleBindRequest l
     = Ret (Some (SimpleBindResult.mk controls), GetLDAPError (Some packet),
            finishMessage msgCtx l1)
     /\ forall (code : Z) (diagnostic : string) (rest : list (option Packet)),
          responseShape packet = Some (code, diagnostic, rest) ->
          code <> 0 ->
          SimpleBind simpleBindRequest l
          = Ret (Some (SimpleBindResult.mk controls),
                 Some (NewError code (errors_New diagnostic)),
                 finishMessage msgCtx l1))
  /\ (forall (err : option error) (l' : Conn),
        SimpleBind simpleBindRequest l = Ret (None, err, l') ->
        (exists (msgCtx : option messageContext) (e : error),
            doRequest simpleBindRequest l = (msgCtx, Some e, l')
            /\ err = Some e)
        \/ (exists (msgCtx : messageContext) (l1 : Conn)
                   (packet : option Packet) (e : error),
              doRequest simpleBindRequest l = (Some msgCtx, None, l1)
              /\ readPacket msgCtx l1 = (packet, Some e)
              /\ err = Some e)
        \/ (exists (msgCtx : messageContext) (l1 : Conn) (packet : Packet)
                   (e : error),
              doRequest simpleBindRequest l = (Some msgCtx, None, l1)
              /\ readPacket msgCtx l1 = (Some packet, None)
              /\ decodeResponseControls packet [] = Ret (inr e)
              /\ err = Some e)).
Proof.
  intros Hguard. split.
  - intros msgCtx l1 packet controls Hdo Hread Hdec.
    pose proof (SimpleBind_on_response _ _ _ _ _ Hguard Hdo Hread) as Hbind.
    rewrite Hdec in Hbind. cbn [go_bind] in Hbind. split; [exact Hbind|].
    intros code diagnostic rest Hshape Hcode. rewrite Hbind.
    rewrite (GetLDAPError_shape _ _ _ _ Hshape).
    rewrite decide_False by exact Hcode. reflexivity.
  - intros err l'. unfold SimpleBind. rewrite (guard_passes _ Hguard).
    destruct (doRequest simpleBindRequest l) as [[msgCtx [e|]] l1] eqn:Hdo.
    + intros Hret.
      assert (Ret (None, Some e, l1) = Ret (None, err, l')) as Heq
        by (destruct msgCtx; exact Hret).
      inversion Heq; subst. left. eauto.
    + destruct msgCtx as [msgCtx|]; [|discriminate].
      destruct (readPacket msgCtx l1) as [packet [e|]] eqn:Hread.
      * intros Hret.
        assert (Ret (None, Some e, finishMessage msgCtx l1)
                = Ret (None, err, l')) as Heq
          by (destruct packet; exact Hret).
        inversion Heq; subst. right. left. eauto 10.
      * destruct packet as [packet|]; [|discriminate].
        cbn [SimpleBindResult.Controls].
        destruct (decodeResponseControls packet []) as [[controls|e]|] eqn:Hdec;
          cbn [go_bind]; try discriminate.
        intros Hret. inversion Hret; subst. right. right. eauto 10.
Qed.

Lemma SimpleBind_keeps_result_on_error_witness :
  exists l' : Conn,
    SimpleBind adminBind refusingConn
    = Ret (Some (SimpleBindResult.mk
                   [CString {| ControlType := ControlTypePaging;
                               Criticality := false; ControlValue := "" |}]),
           Some (NewError 49 (errors_New "invalid credentials")), l').
Proof.
  pose (ctx := {| id := 1 |}).
  pose (l1 := snd (doRequest adminBind refusingConn)).
  destruct (SimpleBind_keeps_result_on_error adminBind refusingConn)
    as [Hkeep _].
  - discriminate.
  - destruct (Hkeep ctx l1 refusal
                [CString {| ControlType := ControlTypePaging;
                            Criticality := false; ControlValue := "" |}])
      as [_ Hcode]; [reflexivity | reflexivity | reflexivity |].
    exists (finishMessage ctx l1).
    apply (Hcode 49 "invalid credentials" []); [reflexivity | discriminate].
Defined.

(** ** SASL bind *)

(** On the fixed envelope shape, [getSASLBindResultCode] yields the
    result code narrowed to eight bits, the token when a fourth child is
    there, and the diagnostic message. *)
Lemma getSASLBindResultCode_shape (packet : Packet) (code : Z)
    (diagnostic : string) (rest : list (option Packet)) :
  responseShape packet = Some (code, diagnostic, rest) ->
  rest !! 0%nat <> Some None ->
  getSASLBindResultCode (Some packet)
  = Ret (uint8 code, tokenOf rest, diagnostic).
Proof.
  unfold responseShape, getSASLBindResultCode.
  destruct (Children packet) as [|m [|[response|] sections]]; try discriminate.
  cbn [lookup list_lookup length Nat.leb].
  destruct (ClassType response); try discriminate.
  destruct (TagType response); try discriminate.
  destruct (Children response) as [|[c0|] [|c1 [|[c2|] more]]]; try discriminate.
  destruct (Value c0) as [| |n| |] eqn:Hv0; try discriminate.
  destruct (Value c2) as [| | |s|] eqn:Hv2; try discriminate.
  intros [= -> -> ->] Hfourth. cbn. rewrite Hv0, Hv2. cbn.
  destruct rest as [|[responseToken|] rest]; cbn; try reflexivity.
  destruct (Hfourth eq_refl).
Qed.

(** C9 (the code at the failing input). The server answers a SASL bind
    with result code 256 and a token: the code is not zero, yet it is
    narrowed to zero, the bind succeeds and hands the token back. *)
Theorem SASLBind_wide_code_succeeds :
  responseShape wideCodeResponse = Some (256, "denied", [Some serverToken])
  /\ 256 <> 0
  /\ getSASLBindResultCode (Some wideCodeResponse)
     = Ret (0, Some (Data serverToken), "denied")
  /\ exists l' : Conn,
       SASLBind "PLAIN" [] wideCodeConn
       = Ret (Some (Data serverToken), None, l').
Proof.
  split; [reflexivity|]. split; [discriminate|]. split; [reflexivity|].
  eexists. vm_compute. reflexivity.
Qed.

(** X19. What [SASLBind] does in general: for every mechanism and
    credentials, when the envelope is submitted and a response of the
    fixed shape arrives, it takes the result code narrowed to eight bits
    (modulo 256), the diagnostic message, and the token when a fourth
    child is there; a narrowed code other than zero yields a failure
    carrying the narrowed code and the diagnostic message, and a narrowed
    code of zero returns the token, nil when the response has none. For
    result codes from 0 to 255 this is what the specification asks. *)
Lemma SASLBind_result `{BerCodec} `{Helpers}
    (mechanism : string) (credentials : list byte) (l : Conn)
    (delivered : option Packet) (packet : Packet) (code : Z)
    (diagnostic : string) (rest : list (option Packet)) :
  let envelope := saslBindEnvelope (messageID l) mechanism credentials in
  isClosing l = false ->
  respond l (written l ++ [envelope])%list (messageID l)
    = Delivered delivered None ->
  (if Debug l then addLDAPDescriptions delivered else (delivered, None))
    = (Some packet, None) ->
  responseShape packet = Some (code, diagnostic, rest) ->
  rest !! 0%nat <> Some None ->
  getSASLBindResultCode (Some packet)
    = Ret (uint8 code, tokenOf rest, diagnostic)
  /\ exists l' : Conn,
       SASLBind mechanism credentials l
       = Ret (if decide (uint8 code = 0) then (tokenOf rest, None)
              else (None, Some (NewError (uint8 code) (errors_New diagnostic))),
              l')
       /\ written l' = (written l ++ [envelope])%list.
Proof.
  intros envelope Hopen Hresp Hdebug Hshape Hfourth.
  pose proof (getSASLBindResultCode_shape _ _ _ _ Hshape Hfourth) as Hcode.
  split; [exact Hcode|].
  unfold SASLBind, nextMessageID, sendMessage. cbn -[saslBindEnvelope uint8].
  rewrite Hopen. cbn -[saslBindEnvelope uint8].
  fold envelope.
  assert (envelopeID envelope = messageID l) as -> by reflexivity.
  rewrite Hresp, Hdebug, Hcode. cbn [go_bind].
  eexists. split.
  - destruct (decide (uint8 code = 0)) as [Hz|Hnz].
    + rewrite bool_decide_eq_true_2 by exact Hz. reflexivity.
    + rewrite bool_decide_eq_false_2 by exact Hnz. reflexivity.
  - reflexivity.
Qed.

Lemma SASLBind_result_refused :
  exists l' : Conn,
    SASLBind "PLAIN" [] refusedSASLConn
    = Ret (None, Some (NewError 49 (errors_New "invalid credentials")), l').
Proof.
  destruct (SASLBind_result "PLAIN" [] refusedSASLConn
              (Some (stubResponse 1 49 "invalid credentials" [] []))
              (stubResponse 1 49 "invalid credentials" [] [])
              49 "invalid credentials" [])
    as (_ & l' & Hret & _);
    [reflexivity | reflexivity | reflexivity | reflexivity | discriminate |].
  exists l'. exact Hret.
Defined.

(** ** RootDSE *)

Lemma rootDSESearch_fields (fields : list string) :
  rootDSESearch fields
  = NewSearchRequest "" ScopeBaseObject NeverDerefAliases 0 0 false
      "(objectclass=*)" fields [].
Proof. destruct fields; reflexivity. Qed.

(** C5. [RootDSE] issues one search, with empty base DN, base-object
    scope, the filter that matches every object class, and the caller's
    attribute list (the empty list when the caller gives none). A search
    error is returned as it is; a result with exactly one entry yields
    that entry, as it is; a result with no entry or with several is a
    failure. *)
Theorem RootDSE_single_entry (fields : list string) (conn : Conn)
    (res : option SearchResult.t) (err : option error) :
  let search := NewSearchRequest "" ScopeBaseObject NeverDerefAliases 0 0
                  false "(objectclass=*)" fields [] in
  searchReply conn (searches conn) search = (res, err) ->
  exists conn' : Conn,
    searches conn' = (searches conn ++ [search])%list
    /\ (forall e, err = Some e ->
        RootDSE fields conn = Ret (None, Some e, conn'))
    /\ (forall r (rootEntry : option Entry.t), err = None -> res = Some r ->
        SearchResult.Entries r = [rootEntry] ->
        RootDSE fields conn = Ret (rootEntry, None, conn'))
    /\ (forall r, err = None -> res = Some r ->
        length (SearchResult.Entries r) <> 1%nat ->
        RootDSE fields conn
        = Ret (None, Some (errors_New "Cannot get RootDSE"), conn')).
Proof.
  intros search Hreply. exists (snd (Search search conn)).
  unfold RootDSE. rewrite rootDSESearch_fields. fold search.
  unfold Search. rewrite Hreply. cbn [snd searches].
  split; [reflexivity|]. split; [|split].
  - intros e ->. reflexivity.
  - intros r rootEntry -> -> Hone. cbn. rewrite Hone. reflexivity.
  - intros r -> -> Hlen. cbn.
    rewrite bool_decide_eq_false_2 by exact Hlen. reflexivity.
Qed.

Lemma RootDSE_single_entry_witness :
  exists conn' : Conn,
    RootDSE [RootDSEdnsHostName] rootConn = Ret (Some rootEntry, None, conn')
    /\ map SearchRequest.Attributes (searches conn') = [[RootDSEdnsHostName]].
Proof.
  destruct (RootDSE_single_entry [RootDSEdnsHostName] rootConn
              (Some {| SearchResult.Entries := [Some rootEntry];
                       SearchResult.Referrals := [];
                       SearchResult.Controls := [] |}) None eq_refl)
    as (conn' & Hlog & _ & Hone & _).
  exists conn'. split.
  - eapply (Hone _ (Some rootEntry)); reflexivity.
  - rewrite Hlog. reflexivity.
Defined.

(** * Further properties of the driver *)

Lemma throughPointer_compose (f g : ControlMicrosoftDirSync -> ControlMicrosoftDirSync)
    (i : nat) (searchRequest : SearchRequest.t) :
  throughPointer f i (throughPointer g i searchRequest)
  = throughPointer (fun d => f (g d)) i searchRequest.
Proof.
  destruct searchRequest as [? ? ? ? ? ? ? ? cs].
  unfold throughPointer, SearchRequest.withControls. cbn. f_equal.
  rewrite list_alter_alter_eq. apply list_alter_ext; [|reflexivity].
  intros [c|c|c|c] _; reflexivity.
Qed.

Lemma preparedRequest_SetCookie (i : nat) (c ck : list byte) (flags : Z)
    (searchRequest0 : SearchRequest.t) :
  throughPointer (SetCookie c) i (preparedRequest i ck flags searchRequest0)
  = preparedRequest i c flags searchRequest0.
Proof.
  unfold preparedRequest. rewrite !throughPointer_compose. reflexivity.
Qed.

Lemma alter_as_insert {A : Type} (f : A -> A) (l : list A) (i : nat) (x : A) :
  l !! i = Some x -> alter f i l = <[i := f x]> l.
Proof.
  revert i. induction l as [|a l IH]; intros [|i] Hl; try discriminate.
  - cbn in Hl. injection Hl as ->. reflexivity.
  - cbn in *. f_equal. apply IH. exact Hl.
Qed.

Lemma preparedRequest_controls (i : nat) (ck : list byte) (flags : Z)
    (searchRequest0 : SearchRequest.t) (d : ControlMicrosoftDirSync) :
  SearchRequest.Controls searchRequest0 !! i = Some (CMicrosoftDirSync d) ->
  preparedRequest i ck flags searchRequest0
  = SearchRequest.withControls
      (<[i := CMicrosoftDirSync {| Flags := flags; RequestCookie := ck |}]>
         (SearchRequest.Controls searchRequest0))
      searchRequest0.
Proof.
  intros Hd. unfold preparedRequest. rewrite throughPointer_compose.
  destruct searchRequest0 as [? ? ? ? ? ? ? ? cs].
  unfold throughPointer, SearchRequest.withControls. cbn in *. f_equal.
  rewrite (alter_as_insert _ _ _ _ Hd). reflexivity.
Qed.

(** The requests a run of the loop issues: the one it starts with, then
    copies of it that differ in the cookie only. *)
Lemma dirSyncLoop_issued (fuel i : nat) (flags : Z)
    (searchRequest0 : SearchRequest.t) :
  forall (ck : list byte) (searchResult : SearchResult.t) (l : Conn)
         (res : option SearchResult.t) (c : option (list byte))
         (e : option error) (searchRequest' : SearchRequest.t) (l' : Conn),
    dirSyncLoop fuel i (preparedRequest i ck flags searchRequest0)
      searchResult l
    = Some (Ret (res, c, e, searchRequest', l')) ->
    exists rest : list SearchRequest.t,
      searches l'
      = (searches l ++ preparedRequest i ck flags searchRequest0 :: rest)%list
      /\ Forall (fun q => exists ck', q = preparedRequest i ck' flags searchRequest0)
           (rest ++ [searchRequest']).
Proof.
  induction fuel as [|fuel IH]; intros ck acc l res c e req' l' Hrun;
    [discriminate|].
  cbn [dirSyncLoop] in Hrun. unfold Search in Hrun.
  destruct (searchReply l (searches l) _) as [result err].
  assert (forall q, q = preparedRequest i ck flags searchRequest0 ->
          Forall (fun q => exists ck', q = preparedRequest i ck' flags searchRequest0)
            ([] ++ [q])) as Hlast
    by (intros q ->; repeat constructor; eauto).
  destruct err as [err|].
  { inversion Hrun; subst. exists []. split; [reflexivity | auto]. }
  destruct result as [result|].
  2:{ inversion Hrun; subst. exists []. split; [reflexivity | auto]. }
  destruct (FindControl _ _) as [[c0|c0|c0|d]|]; try discriminate.
  2:{ inversion Hrun; subst. exists []. split; [reflexivity | auto]. }
  destruct (bool_decide (length (Cookie d) = 0%nat)).
  { inversion Hrun; subst. exists []. split; [reflexivity | auto]. }
  destruct (bool_decide (MoreResults d = 0)).
  { inversion Hrun; subst. exists []. split; [reflexivity | auto]. }
  rewrite preparedRequest_SetCookie in Hrun.
  apply IH in Hrun as (rest & Hlog & Hall).
  exists (preparedRequest i (Cookie d) flags searchRequest0 :: rest). split.
  - rewrite Hlog. cbn. rewrite <- app_assoc. reflexivity.
  - cbn. constructor; [eauto | exact Hall].
Qed.

Lemma FindControl_In (controls : list Control) (controlType : string)
    (c : Control) :
  FindControl controls controlType = Some c -> In c controls.
Proof.
  intros Hc. apply FindControl_index in Hc as (i & _ & Hl).
  apply list_elem_of_In. eapply list_elem_of_lookup_2. exact Hl.
Qed.

(** What a run of the loop can return. *)
Lemma dirSyncLoop_outcome (fuel i : nat) :
  forall (searchRequest : SearchRequest.t) (searchResult : SearchResult.t)
         (l : Conn) (res : option SearchResult.t) (c : option (list byte))
         (e : option error) (searchRequest' : SearchRequest.t) (l' : Conn),
    dirSyncLoop fuel i searchRequest searchResult l
    = Some (Ret (res, c, e, searchRequest', l')) ->
    exists r : SearchResult.t,
      res = Some r
      /\ ((exists err, e = Some err /\ c = None)
          \/ (e = None
              /\ exists d : ControlMicrosoftDirSyncResponse,
                   c = Some (Cookie d) /\ Cookie d <> []
                   /\ MoreResults d = 0
                   /\ In (CMicrosoftDirSyncResponse d)
                        (SearchResult.Controls r))).
Proof.
  induction fuel as [|fuel IH]; intros req acc l res c e req' l' Hrun;
    [discriminate|].
  cbn [dirSyncLoop] in Hrun. unfold Search in Hrun.
  destruct (searchReply l (searches l) _) as [result err].
  destruct err as [err|].
  { inversion Hrun; subst. eauto 10. }
  destruct result as [result|].
  2:{ inversion Hrun; subst. eauto 10. }
  destruct (FindControl _ _) as [[c0|c0|c0|d]|] eqn:Hfind; try discriminate.
  2:{ inversion Hrun; subst. eauto 10. }
  destruct (bool_decide_reflect (length (Cookie d) = 0%nat)) as [Hlen|Hlen].
  { inversion Hrun; subst. eauto 10. }
  destruct (bool_decide_reflect (MoreResults d = 0)) as [Hmore|Hmore].
  - inversion Hrun; subst. eexists. split; [reflexivity|]. right.
    split; [reflexivity|]. exists d. repeat split; try assumption.
    + intros Hnil. rewrite Hnil in Hlen. exact (Hlen eq_refl).
    + cbn. apply in_or_app. right. exact (FindControl_In _ _ _ Hfind).
  - exact (IH _ _ _ _ _ _ _ _ Hrun).
Qed.

(** X1 (witness). A request that holds an opaque control under the
    DirSync OID is refused before any search. *)
Lemma SearchWithDirSync_request_mismatch_witness :
  SearchWithDirSync 5 opaqueRequest cookieA 7 twoRoundConn
  = Some (Ret (None, None,
               Some (fmt_Errorf_v
                       "expected dirSync control to be of type *ControlMicrosoftDirSync, got %v"
                       opaqueDirSync),
               opaqueRequest, twoRoundConn)).
Proof.
  apply (SearchWithDirSync_request_mismatch 5 opaqueRequest cookieA 7
           twoRoundConn opaqueDirSync).
  - reflexivity.
  - intros d. discriminate.
Defined.

(** X2. At any round, a control of another type than the DirSync
    response found under the DirSync OID of the search result makes the
    whole call panic, whatever was accumulated before. *)
Theorem SearchWithDirSync_response_mismatch_panics `{Helpers}
    (fuel : nat) (searchRequest searchRequest' : SearchRequest.t)
    (cookie : list byte) (flags : Z) (l lN l' : Conn) (i : nat)
    (rounds : list (SearchResult.t * ControlMicrosoftDirSyncResponse))
    (result : SearchResult.t) (control : Control) :
  Reaches searchRequest cookie flags l i rounds searchRequest' lN ->
  (length rounds < fuel)%nat ->
  Search searchRequest' lN = (Some result, None, l') ->
  FindControl (SearchResult.Controls result) ControlTypeMicrosoftDirSync
    = Some control ->
  (forall d, control <> CMicrosoftDirSyncResponse d) ->
  SearchWithDirSync fuel searchRequest cookie flags l = Some Panic.
Proof.
  intros HR Hfuel HS HF Hne.
  destruct (SearchWithDirSync_reaches _ _ _ _ _ _ _ _ HR fuel Hfuel) as [k ->].
  exact (dirSyncLoop_response_mismatch _ _ _ _ _ _ _ _ HS HF Hne).
Qed.

Lemma SearchWithDirSync_response_mismatch_panics_witness :
  SearchWithDirSync 5 plainSearch [] 0 wrongVariantConn = Some Panic.
Proof.
  eapply (SearchWithDirSync_response_mismatch_panics 5 plainSearch _ [] 0
            wrongVariantConn _ _ 0%nat [] _ opaqueDirSync).
  - eexists. split; [reflexivity | apply Rounds_done].
  - cbn. lia.
  - reflexivity.
  - reflexivity.
  - intros d. discriminate.
Defined.

(** X3. For a request with at most one control under the DirSync OID:
    whenever the driver returns a result, the searches it issued are
    recorded after the earlier ones; the first carries the caller's
    cookie and flags in the DirSync control, and every later one, like
    the request handed back, is the same request with only the cookie of
    that control replaced. *)
Theorem SearchWithDirSync_issued_requests `{Helpers}
    (fuel : nat) (searchRequest : SearchRequest.t) (cookie : list byte)
    (flags : Z) (l : Conn) (r : SearchResult.t) (c : option (list byte))
    (e : option error) (searchRequest' : SearchRequest.t) (l' : Conn) :
  loneDirSync (SearchRequest.Controls searchRequest) ->
  SearchWithDirSync fuel searchRequest cookie flags l
  = Some (Ret (Some r, c, e, searchRequest', l')) ->
  exists (i : nat) (searchRequest0 : SearchRequest.t)
         (rest : list SearchRequest.t),
    attachDirSync searchRequest = inl (i, searchRequest0)
    /\ searches l'
       = (searches l
          ++ preparedRequest i cookie flags searchRequest0 :: rest)%list
    /\ Forall (fun q => exists ck, q = preparedRequest i ck flags searchRequest0)
         (rest ++ [searchRequest']).
Proof.
  intros _. unfold SearchWithDirSync.
  destruct (attachDirSync searchRequest) as [[i req0]|err]; [|discriminate].
  intros Hrun. exists i, req0.
  destruct (dirSyncLoop_issued _ _ _ _ _ _ _ _ _ _ _ _ Hrun) as (rest & Hlog & Hall).
  exists rest. auto.
Qed.

Lemma SearchWithDirSync_issued_requests_witness :
  exists (i : nat) (searchRequest0 : SearchRequest.t)
         (rest : list SearchRequest.t) (l' : Conn),
    attachDirSync resumedSearch = inl (i, searchRequest0)
    /\ searches l'
       = (searches twoRoundConn
          ++ preparedRequest i [] 7 searchRequest0 :: rest)%list.
Proof.
  edestruct (SearchWithDirSync_issued_requests 5 resumedSearch [] 7
               twoRoundConn)
    as (i & req0 & rest & Hat & Hlog & _).
  - intros [|[|[|j]]] [|[|[|k]]] c c' Hj Hk Hc Hc';
      try reflexivity; try discriminate Hj; try discriminate Hk;
      cbn in Hj, Hk; simplify_eq; discriminate.
  - vm_compute. reflexivity.
  - exists i, req0, rest. eexists. split; [exact Hat | exact Hlog].
Defined.

(** X4. Whatever the driver returns, it is one of two things: an error
    with no cookie, or no error with a result and a non-empty cookie,
    the cookie of a DirSync response control whose more-results
    indicator is zero and which is among the controls of the result. *)
Theorem SearchWithDirSync_outcome `{Helpers}
    (fuel : nat) (searchRequest : SearchRequest.t) (cookie : list byte)
    (flags : Z) (l : Conn) (res : option SearchResult.t)
    (c : option (list byte)) (e : option error)
    (searchRequest' : SearchRequest.t) (l' : Conn) :
  SearchWithDirSync fuel searchRequest cookie flags l
  = Some (Ret (res, c, e, searchRequest', l')) ->
  (exists err, e = Some err /\ c = None)
  \/ (e = None
      /\ exists (r : SearchResult.t) (d : ControlMicrosoftDirSyncResponse),
           res = Some r /\ c = Some (Cookie d) /\ Cookie d <> []
           /\ MoreResults d = 0
           /\ In (CMicrosoftDirSyncResponse d) (SearchResult.Controls r)).
Proof.
  unfold SearchWithDirSync.
  destruct (attachDirSync searchRequest) as [[i req0]|err].
  - intros Hrun.
    destruct (dirSyncLoop_outcome _ _ _ _ _ _ _ _ _ _ Hrun)
      as (r & -> & [Herr | (-> & d & Hd)]); [left; exact Herr|].
    right. split; [reflexivity|]. exists r, d. tauto.
  - intros Hret. inversion Hret; subst. left. eauto.
Qed.

Lemma SearchWithDirSync_outcome_witness :
  exists (r : SearchResult.t) (d : ControlMicrosoftDirSyncResponse),
    Cookie d <> [] /\ MoreResults d = 0
    /\ In (CMicrosoftDirSyncResponse d) (SearchResult.Controls r).
Proof.
  edestruct (SearchWithDirSync_outcome 5 plainSearch [] 7 twoRoundConn)
    as [(err & Herr & _) | (_ & r & d & _ & _ & Hc & Hm & Hin)].
  - vm_compute. reflexivity.
  - discriminate Herr.
  - exists r, d. auto.
Defined.

Lemma last_map_Some {A : Type} (x : A) (xs : list A) :
  exists y : A, last (x :: xs) = Some y
                /\ last (map Some (x :: xs)) = Some (Some y).
Proof.
  revert x. induction xs as [|x' xs IH]; intros x.
  - exists x. split; reflexivity.
  - destruct (IH x') as (y & Hy & Hmap). exists y. split.
    + rewrite last_cons_cons. exact Hy.
    + change (map Some (x :: x' :: xs)) with (Some x :: map Some (x' :: xs)).
      cbn [map] in *. rewrite last_cons_cons. exact Hmap.
Qed.

Lemma last_map_snoc {A B : Type} (f : A -> B) (xs : list A) (x : A) :
  last (map f (xs ++ [x])) = Some (f x).
Proof. rewrite map_app. cbn. apply last_snoc. Qed.

(** X5. After an exchange that ends well, the request handed back to
    the caller does not carry the cookie that is returned: its DirSync
    control still holds the cookie of the last round that continued, or
    the caller's own cookie when the first round was the last. *)
Theorem SearchWithDirSync_request_keeps_previous_cookie `{Helpers}
    (fuel : nat) (searchRequest searchRequest' : SearchRequest.t)
    (cookie : list byte) (flags : Z) (l lN l' : Conn) (i : nat)
    (rounds : list (SearchResult.t * ControlMicrosoftDirSyncResponse))
    (result : SearchResult.t) (d : ControlMicrosoftDirSyncResponse) :
  Reaches searchRequest cookie flags l i rounds searchRequest' lN ->
  (length rounds < fuel)%nat ->
  Search searchRequest' lN = (Some result, None, l') ->
  FindControl (SearchResult.Controls result) ControlTypeMicrosoftDirSync
    = Some (CMicrosoftDirSyncResponse d) ->
  Cookie d <> [] ->
  MoreResults d = 0 ->
  exists total : SearchResult.t,
    SearchWithDirSync fuel searchRequest cookie flags l
    = Some (Ret (Some total, Some (Cookie d), None, searchRequest', l'))
    /\ dirSyncCookie i searchRequest'
       = last (cookie :: map (fun rd => Cookie (snd rd)) rounds).
Proof.
  intros HR Hfuel HS HF HC HM. eexists. split.
  - destruct (SearchWithDirSync_reaches _ _ _ _ _ _ _ _ HR fuel Hfuel) as [k ->].
    cbn [dirSyncLoop]. rewrite HS, HF.
    rewrite (length_zero_false _ HC).
    rewrite bool_decide_eq_true_2 by exact HM. reflexivity.
  - destruct (Reaches_trace _ _ _ _ _ _ _ _ HR) as (issued & _ & Hcookies).
    pose proof (last_map_snoc (dirSyncCookie i) issued searchRequest') as Hl.
    rewrite Hcookies in Hl.
    destruct (last_map_Some cookie (map (fun rd => Cookie (snd rd)) rounds))
      as (y & Hy & Hmap).
    rewrite Hmap in Hl. injection Hl as Hl. rewrite Hy, <- Hl. reflexivity.
Qed.

Lemma SearchWithDirSync_request_keeps_previous_cookie_witness :
  exists (total : SearchResult.t) (searchRequest' : SearchRequest.t) (l' : Conn),
    SearchWithDirSync 5 plainSearch [] 7 twoRoundConn
    = Some (Ret (Some total, Some cookieB, None, searchRequest', l'))
    /\ dirSyncCookie 0 searchRequest' = Some cookieA.
Proof.
  pose (req1 := preparedRequest 0 [] 7
                  (SearchRequest.withControls
                     [CMicrosoftDirSync NewControlMicrosoftDirSync]
                     plainSearch)).
  pose (req2 := throughPointer (SetCookie cookieA) 0 req1).
  pose (l1 := snd (Search req1 twoRoundConn)).
  pose (l2 := snd (Search req2 l1)).
  destruct (SearchWithDirSync_request_keeps_previous_cookie 5 plainSearch req2
              [] 7 twoRoundConn l1 l2 0%nat
              [(stubRound "cn=a" 1 cookieA,
                {| MoreResults := 1; Cookie := cookieA |})]
              (stubRound "cn=b" 0 cookieB)
              {| MoreResults := 0; Cookie := cookieB |})
    as (total & Hret & Hstale).
  - eexists. split; [reflexivity|].
    eapply Rounds_more;
      [reflexivity | reflexivity | discriminate | discriminate
      | apply Rounds_done].
  - cbn. lia.
  - reflexivity.
  - reflexivity.
  - discriminate.
  - reflexivity.
  - exists total, req2, l2. split; [exact Hret | exact Hstale].
Defined.

Lemma insert_snoc {A : Type} (l : list A) (x y : A) :
  <[length l := y]> (l ++ [x]) = (l ++ [y])%list.
Proof. induction l as [|a l IH]; cbn; [reflexivity | f_equal; exact IH]. Qed.

(** X6. For a request with at most one control under the DirSync OID,
    the DirSync control is attached by replace-or-append: when the
    request has no control under the DirSync OID, the request handed
    back is the caller's with one control appended after the others;
    when it has one of the request type, that control is replaced where
    it stands. Either way the control holds the caller's flags, and
    nothing else of the request changes. *)
Theorem SearchWithDirSync_upserts_control `{Helpers}
    (fuel : nat) (searchRequest : SearchRequest.t) (cookie : list byte)
    (flags : Z) (l : Conn) (r : SearchResult.t) (c : option (list byte))
    (e : option error) (searchRequest' : SearchRequest.t) (l' : Conn) :
  loneDirSync (SearchRequest.Controls searchRequest) ->
  SearchWithDirSync fuel searchRequest cookie flags l
  = Some (Ret (Some r, c, e, searchRequest', l')) ->
  exists ck : list byte,
    let control :=
      CMicrosoftDirSync {| Flags := flags; RequestCookie := ck |} in
    (FindControl (SearchRequest.Controls searchRequest)
       ControlTypeMicrosoftDirSync = None ->
     searchRequest'
     = SearchRequest.withControls
         (SearchRequest.Controls searchRequest ++ [control]) searchRequest)
    /\ (forall d,
          FindControl (SearchRequest.Controls searchRequest)
            ControlTypeMicrosoftDirSync = Some (CMicrosoftDirSync d) ->
          exists i : nat,
            FindControlIndex (SearchRequest.Controls searchRequest)
              ControlTypeMicrosoftDirSync = Some i
            /\ searchRequest'
               = SearchRequest.withControls
                   (<[i := control]> (SearchRequest.Controls searchRequest))
                   searchRequest).
Proof.
  intros _. unfold SearchWithDirSync.
  destruct (attachDirSync searchRequest) as [[i req0]|err] eqn:Hat;
    [|discriminate].
  intros Hrun.
  destruct (dirSyncLoop_issued _ _ _ _ _ _ _ _ _ _ _ _ Hrun)
    as (rest & _ & Hall).
  apply Forall_app in Hall as [_ Hlast].
  apply Forall_cons in Hlast as [(ck & ->) _].
  exists ck. cbv zeta. unfold attachDirSync in Hat. split.
  - intros Hnone. rewrite Hnone in Hat. injection Hat as <- <-.
    rewrite (preparedRequest_controls _ _ _ _ NewControlMicrosoftDirSync).
    + destruct searchRequest as [? ? ? ? ? ? ? ? cs]. cbn.
      unfold SearchRequest.withControls. cbn. rewrite insert_snoc. reflexivity.
    + destruct searchRequest as [? ? ? ? ? ? ? ? cs]. cbn.
      rewrite lookup_app_r by lia. rewrite Nat.sub_diag. reflexivity.
  - intros d Hsome. rewrite Hsome in Hat. injection Hat as <- <-.
    apply FindControl_index in Hsome as (j & Hj & Hl).
    exists j. split; [exact Hj|]. rewrite Hj. cbn [default].
    exact (preparedRequest_controls _ _ _ _ _ Hl).
Qed.

Lemma SearchWithDirSync_upserts_control_witness :
  exists (ck : list byte) (searchRequest' : SearchRequest.t),
    searchRequest'
    = SearchRequest.withControls
        [CPaging {| PagingSize := 0; PagingCookie := [] |};
         CMicrosoftDirSync {| Flags := 7; RequestCookie := ck |}]
        plainSearch.
Proof.
  edestruct (SearchWithDirSync_upserts_control 5 resumedSearch [] 7
               twoRoundConn)
    as (ck & _ & Hreplace).
  - intros [|[|[|j]]] [|[|[|k]]] c c' Hj Hk Hc Hc';
      try reflexivity; try discriminate Hj; try discriminate Hk;
      cbn in Hj, Hk; simplify_eq; discriminate.
  - vm_compute. reflexivity.
  - exists ck. eexists.
    destruct (Hreplace {| Flags := 1; RequestCookie := cookieB |} eq_refl)
      as (i & Hi & Hreq).
    vm_compute in Hi. injection Hi as <-. exact Hreq.
Defined.

(** * Further properties of RootDSE *)

(** X7. When the search yields neither a result nor an error,
    [RootDSE] panics on the nil result. *)
Theorem RootDSE_nil_result_panics (fields : list string) (conn : Conn) :
  searchReply conn (searches conn) (rootDSESearch fields) = (None, None) ->
  RootDSE fields conn = Panic.
Proof.
  intros Hreply. unfold RootDSE, Search. rewrite Hreply. reflexivity.
Qed.

Lemma RootDSE_nil_result_panics_witness :
  RootDSE [RootDSEdnsHostName] silentConn = Panic.
Proof.
  apply (RootDSE_nil_result_panics [RootDSEdnsHostName] silentConn).
  reflexivity.
Defined.

(** X8. Whenever [RootDSE] returns, exactly one search was issued.
    It returns without an error only when that search succeeded with
    exactly one entry, and what it hands back is then that entry as it
    is, nil if the entry is nil; with an error it hands back no entry. *)
Theorem RootDSE_entry_only_from_single (fields : list string) (conn conn' : Conn)
    (entry : option Entry.t) (err : option error) :
  RootDSE fields conn = Ret (entry, err, conn') ->
  searches conn' = (searches conn ++ [rootDSESearch fields])%list
  /\ (err = None ->
      exists r : SearchResult.t,
        searchReply conn (searches conn) (rootDSESearch fields)
        = (Some r, None)
        /\ SearchResult.Entries r = [entry])
  /\ (forall e : error, err = Some e -> entry = None).
Proof.
  unfold RootDSE, Search.
  destruct (searchReply conn (searches conn) (rootDSESearch fields))
    as [res e].
  destruct e as [e|].
  { intros Hret. inversion Hret; subst. cbn.
    split; [reflexivity|]. split; [discriminate | reflexivity]. }
  destruct res as [r|]; [|discriminate]. cbn [deref go_bind].
  destruct (bool_decide_reflect (length (SearchResult.Entries r) = 1%nat))
    as [Hone|Hne]; cbn [negb].
  - destruct (SearchResult.Entries r) as [|e0 [|e1 es]] eqn:Hentries;
      try discriminate.
    cbn. intros Hret. inversion Hret; subst. cbn.
    split; [reflexivity|]. split; [|discriminate].
    intros _. exists r. split; [reflexivity | exact Hentries].
  - intros Hret. inversion Hret; subst. cbn.
    split; [reflexivity|]. split; [discriminate | reflexivity].
Qed.

Lemma RootDSE_entry_only_from_single_witness :
  exists r : SearchResult.t, SearchResult.Entries r = [Some rootEntry].
Proof.
  edestruct (RootDSE_entry_only_from_single [RootDSEdnsHostName] rootConn)
    as (_ & Hentry & _).
  - vm_compute. reflexivity.
  - destruct (Hentry eq_refl) as (r & _ & Hr). exists r. exact Hr.
Defined.

(** * Further properties of the bind family *)

(** X9. When [SimpleBind] returns a result for a response with a
    controls section, the controls of the result are the decoded
    children of that section, one for one and in their order. *)
Theorem SimpleBind_controls_in_order `{BerCodec} `{Helpers}
    (simpleBindRequest : SimpleBindRequest.t) (l l1 l' : Conn)
    (msgCtx : messageContext) (packet section : Packet)
    (result : SimpleBindResult.t) (err : option error) :
  (SimpleBindRequest.Password simpleBindRequest = "" ->
   SimpleBindRequest.AllowEmptyPassword simpleBindRequest = true) ->
  doRequest simpleBindRequest l = (Some msgCtx, None, l1) ->
  readPacket msgCtx l1 = (Some packet, None) ->
  length (Children packet) = 3%nat ->
  Children packet !! 2%nat = Some (Some section) ->
  SimpleBind simpleBindRequest l = Ret (Some result, err, l') ->
  Forall2 (fun child c => DecodeControl child = inl c)
    (Children section) (SimpleBindResult.Controls result).
Proof.
  intros Hguard Hdo Hread Hlen Hsection Hret.
  rewrite (SimpleBind_on_response _ _ _ _ _ Hguard Hdo Hread) in Hret.
  unfold decodeResponseControls in Hret.
  rewrite decide_True in Hret by exact Hlen. rewrite Hsection in Hret.
  cbn [deref go_bind] in Hret.
  destruct (decodeChildren (Children section) []) as [controls|e] eqn:Hdec;
    [|discriminate].
  inversion Hret; subst. cbn.
  apply decodeChildren_inl in Hdec as (fresh & -> & Hall). exact Hall.
Qed.

Lemma SimpleBind_controls_in_order_witness :
  exists (section : Packet) (result : SimpleBindResult.t),
    Forall2 (fun child c => DecodeControl child = inl c)
      (Children section) (SimpleBindResult.Controls result)
    /\ length (SimpleBindResult.Controls result) = 1%nat.
Proof.
  pose (ctx := {| id := 1 |}).
  pose (l1 := snd (doRequest adminBind refusingConn)).
  pose (section := encodeControls
                     [CPaging {| PagingSize := 0; PagingCookie := [] |}]).
  pose (result := SimpleBindResult.mk
                    [CString {| ControlType := ControlTypePaging;
                                Criticality := false; ControlValue := "" |}]).
  exists section, result. split; [|reflexivity].
  apply (SimpleBind_controls_in_order adminBind refusingConn l1
           (finishMessage ctx l1) ctx refusal section result
           (Some (NewError 49 (errors_New "invalid credentials"))));
    [discriminate | reflexivity | reflexivity | reflexivity | reflexivity
    | reflexivity].
Defined.

(** X10. When a child of the controls section fails to decode,
    [SimpleBind] returns no result and the error of the first such
    child, wrapped; the result code of the response is not looked at,
    so even an accepted bind is reported as a failure. *)
Theorem SimpleBind_decode_failure_first `{BerCodec} `{Helpers}
    (simpleBindRequest : SimpleBindRequest.t) (l l1 : Conn)
    (msgCtx : messageContext) (packet section : Packet)
    (before after : list (option Packet)) (child : option Packet)
    (decodeErr : error) :
  (SimpleBindRequest.Password simpleBindRequest = "" ->
   SimpleBindRequest.AllowEmptyPassword simpleBindRequest = true) ->
  doRequest simpleBindRequest l = (Some msgCtx, None, l1) ->
  readPacket msgCtx l1 = (Some packet, None) ->
  length (Children packet) = 3%nat ->
  Children packet !! 2%nat = Some (Some section) ->
  Children section = (before ++ child :: after)%list ->
  Forall (fun p => exists c, DecodeControl p = inl c) before ->
  DecodeControl child = inr decodeErr ->
  SimpleBind simpleBindRequest l
  = Ret (None,
         Some (fmt_Errorf "failed to decode child control: %s" decodeErr),
         finishMessage msgCtx l1).
Proof.
  intros Hguard Hdo Hread Hlen Hsection Hsplit Hbefore Hchild.
  rewrite (SimpleBind_on_response _ _ _ _ _ Hguard Hdo Hread).
  unfold decodeResponseControls.
  rewrite decide_True by exact Hlen. rewrite Hsection.
  cbn [deref go_bind]. rewrite Hsplit.
  rewrite (decodeChildren_inr _ _ _ _ _ Hbefore Hchild). reflexivity.
Qed.

Lemma SimpleBind_decode_failure_first_witness :
  responseShape brokenControlsResponse = Some (0, "", [])
  /\ exists l' : Conn,
       SimpleBind adminBind brokenControlsConn
       = Ret (None,
              Some (fmt_Errorf "failed to decode child control: %s"
                      (errors_New "control has no type")),
              l').
Proof.
  split; [reflexivity|].
  pose (ctx := {| id := 1 |}).
  pose (l1 := snd (doRequest adminBind brokenControlsConn)).
  exists (finishMessage ctx l1).
  eapply (SimpleBind_decode_failure_first adminBind brokenControlsConn l1 ctx
            brokenControlsResponse _ [] [] _
            (errors_New "control has no type"));
    [discriminate | reflexivity | reflexivity | reflexivity | reflexivity
    | reflexivity | constructor | reflexivity].
Defined.

Lemma getSASLBindResultCode_success (packet : option Packet)
    (token : option (list byte)) (description : string) :
  getSASLBindResultCode packet = Ret (0, token, description) ->
  exists (p : Packet) (code : Z) (rest : list (option Packet)),
    packet = Some p
    /\ responseShape p = Some (code, description, rest)
    /\ uint8 code = 0
    /\ token = tokenOf rest.
Proof.
  unfold getSASLBindResultCode, ErrorNetwork, ErrorUnexpectedResponse.
  destruct packet as [p|]; [|discriminate].
  destruct (Children p) as [|m [|[response|] sections]] eqn:Hp;
    try discriminate.
  cbn [lookup list_lookup length Nat.leb].
  destruct (ClassType response) eqn:Hclass; try discriminate.
  destruct (TagType response) eqn:Htype; try discriminate.
  destruct (Children response) as [|c0 [|c1 [|c2 more]]] eqn:Hr;
    try discriminate.
  cbn [length Nat.leb bool_decide decide_rel andb lookup list_lookup].
  destruct c0 as [c0|]; [|discriminate]. cbn [deref go_bind].
  destruct (Value c0) as [| |n| |] eqn:Hv0; try discriminate.
  cbn [assert_int64 go_bind].
  destruct c2 as [c2|]; [|discriminate]. cbn [deref go_bind].
  destruct (Value c2) as [| | |s|] eqn:Hv2; try discriminate.
  cbn [assert_string go_bind].
  assert (responseShape p = Some (n, s, more)) as Hshape.
  { unfold responseShape. rewrite Hp. cbn [lookup list_lookup].
    rewrite Hclass, Htype, Hr, Hv0, Hv2. reflexivity. }
  destruct more as [|[responseToken|] more]; cbn; try discriminate.
  - intros Hret. inversion Hret; subst. exists p, n, []. auto.
  - intros Hret. inversion Hret; subst.
    exists p, n, (Some responseToken :: more). auto.
Qed.

(** X11. [SASLBind] reports success only when one envelope was
    submitted and the response delivered for it has the fixed shape with
    a result code that narrows to zero; the token it returns is then the
    content of the fourth child of the response, or nil without one. *)
Theorem SASLBind_success_requires_shape `{BerCodec} `{Helpers}
    (mechanism : string) (credentials : list byte) (l l' : Conn)
    (token : option (list byte)) :
  SASLBind mechanism credentials l = Ret (token, None, l') ->
  let envelope := saslBindEnvelope (messageID l) mechanism credentials in
  exists (delivered : option Packet) (packet : Packet) (code : Z)
         (description : string) (rest : list (option Packet)),
    isClosing l = false
    /\ respond l (written l ++ [envelope])%list (messageID l)
       = Delivered delivered None
    /\ (if Debug l then addLDAPDescriptions delivered else (delivered, None))
       = (Some packet, None)
    /\ responseShape packet = Some (code, description, rest)
    /\ uint8 code = 0
    /\ token = tokenOf rest
    /\ written l' = (written l ++ [envelope])%list.
Proof.
  intros Hret envelope.
  unfold SASLBind, nextMessageID, sendMessage in Hret.
  cbn -[saslBindEnvelope getSASLBindResultCode] in Hret.
  fold envelope in Hret.
  destruct (isClosing l) eqn:Hclosing; [discriminate|].
  cbn -[saslBindEnvelope getSASLBindResultCode] in Hret.
  fold envelope in Hret.
  assert (envelopeID envelope = messageID l) as Hid by reflexivity.
  rewrite Hid in Hret.
  destruct (respond l (written l ++ [envelope]) (messageID l))
    as [|delivered [e|]] eqn:Hresp; try discriminate.
  destruct (if Debug l then addLDAPDescriptions delivered else (delivered, None))
    as [packet [e|]] eqn:Hdebug; [discriminate|].
  destruct (getSASLBindResultCode packet) as [[[code tok] description]|]
    eqn:Hcode; [|discriminate].
  cbn [go_bind] in Hret.
  destruct (bool_decide_reflect (code = 0)) as [->|Hne]; [|discriminate].
  cbn [negb] in Hret. inversion Hret; subst.
  apply getSASLBindResultCode_success in Hcode
    as (p & n & rest & -> & Hshape & Hzero & ->).
  exists delivered, p, n, description, rest. cbn. auto 10.
Qed.

Lemma SASLBind_success_requires_shape_witness :
  exists (packet : Packet) (code : Z) (description : string)
         (rest : list (option Packet)),
    responseShape packet = Some (code, description, rest)
    /\ uint8 code = 0
    /\ Some (Data serverToken) = tokenOf rest.
Proof.
  edestruct (SASLBind_success_requires_shape "PLAIN" [] acceptedSASLConn)
    as (delivered & packet & code & description & rest
        & _ & _ & _ & Hshape & Hzero & Htoken & _).
  - vm_compute. reflexivity.
  - exists packet, code, description, rest. auto.
Defined.

(** X12. [SASLBind] never returns a token together with an error. *)
Theorem SASLBind_error_without_token `{BerCodec} `{Helpers}
    (mechanism : string) (credentials : list byte) (l l' : Conn)
    (token : option (list byte)) (err : error) :
  SASLBind mechanism credentials l = Ret (token, Some err, l') ->
  token = None.
Proof.
  unfold SASLBind, nextMessageID, sendMessage.
  cbn -[saslBindEnvelope getSASLBindResultCode].
  destruct (isClosing l).
  { intros Hret. inversion Hret. reflexivity. }
  cbn -[saslBindEnvelope getSASLBindResultCode].
  destruct (respond l _ _) as [|delivered [e|]].
  { intros Hret. inversion Hret. reflexivity. }
  { intros Hret. inversion Hret. reflexivity. }
  destruct (if Debug l then addLDAPDescriptions delivered else (delivered, None))
    as [packet [e|]].
  { intros Hret. inversion Hret. reflexivity. }
  destruct (getSASLBindResultCode packet) as [[[code tok] description]|];
    [|discriminate].
  cbn [go_bind]. destruct (bool_decide (code = 0)); cbn [negb].
  - discriminate.
  - intros Hret. inversion Hret. reflexivity.
Qed.

Lemma SASLBind_error_without_token_witness :
  exists token : option (list byte), token = None.
Proof.
  eexists.
  eapply (SASLBind_error_without_token "PLAIN" [] refusedSASLConn).
  vm_compute. reflexivity.
Defined.

(** X13. On a response whose operation is application-tagged and
    constructed with at least three children, [getSASLBindResultCode]
    panics when the first child is nil or does not hold an [int64], and
    when the third child is nil or does not hold a string: the type
    assertions on them are unchecked. *)
Theorem getSASLBindResultCode_unchecked_assertions (packet response : Packet) :
  Children packet !! 1%nat = Some (Some response) ->
  ClassType response = ClassApplication ->
  TagType response = TypeConstructed ->
  (3 <= length (Children response))%nat ->
  (match Children response !! 0%nat with
   | Some (Some c0) => forall n, Value c0 <> VInt64 n
   | _ => True
   end)
  \/ (match Children response !! 2%nat with
      | Some (Some c2) => forall s, Value c2 <> VString s
      | _ => True
      end) ->
  getSASLBindResultCode (Some packet) = Panic.
Proof.
  intros Hresponse Hclass Htype Hlen Hbad. unfold getSASLBindResultCode.
  destruct (Children packet) as [|m [|r sections]]; try discriminate.
  cbn in Hresponse. injection Hresponse as ->.
  cbn [lookup list_lookup length Nat.leb]. rewrite Hclass, Htype.
  destruct (Children response) as [|c0 [|c1 [|c2 more]]]; cbn in Hlen;
    try lia.
  cbn [length Nat.leb bool_decide decide_rel andb lookup list_lookup] in *.
  destruct c0 as [c0|]; [|reflexivity]. cbn [deref go_bind].
  destruct (Value c0) as [| |n| |] eqn:Hv0; try reflexivity.
  cbn [assert_int64 go_bind].
  destruct Hbad as [Hbad|Hbad]; [destruct (Hbad n eq_refl)|].
  destruct c2 as [c2|]; [|reflexivity]. cbn [deref go_bind].
  destruct (Value c2) as [| | |s|] eqn:Hv2; try reflexivity.
  destruct (Hbad s eq_refl).
Qed.

Lemma getSASLBindResultCode_unchecked_assertions_witness :
  getSASLBindResultCode (Some illTypedResponse) = Panic.
Proof.
  apply (getSASLBindResultCode_unchecked_assertions illTypedResponse
           illTypedOperation);
    [reflexivity | reflexivity | reflexivity | cbn; lia |].
  left. intros n. discriminate.
Defined.

(** X14. The envelope of a SASL bind has two children, the message ID
    and a bind request (application-tagged, constructed, tag 0) made of
    the version 3, an empty name and the SASL credentials
    (context-tagged, constructed, tag 3); these hold the mechanism and
    the credentials, whose content octets are the caller's bytes
    unchanged by the passage through a string. *)
Theorem saslBindEnvelope_shape `{BerCodec} (mid : Z) (mechanism : string)
    (credentials : list byte) :
  exists bindRequest saslCreds : Packet,
    map (fmap Value) (Children (saslBindEnvelope mid mechanism credentials))
    = [Some (VInt64 mid); Some VNil]
    /\ Children (saslBindEnvelope mid mechanism credentials) !! 1%nat
       = Some (Some bindRequest)
    /\ ClassType bindRequest = ClassApplication
    /\ TagType bindRequest = TypeConstructed
    /\ Tag bindRequest = ApplicationBindRequest
    /\ Children bindRequest
       = [Some {| ClassType := ClassUniversal; TagType := TypePrimitive;
                  Tag := TagInteger; Value := VInt 3;
                  Data := encodeInteger 3; Children := [];
                  Description := "Version" |};
          Some {| ClassType := ClassUniversal; TagType := TypePrimitive;
                  Tag := TagOctetString; Value := VString "";
                  Data := []; Children := []; Description := "Name" |};
          Some saslCreds]
    /\ ClassType saslCreds = ClassContext
    /\ TagType saslCreds = TypeConstructed
    /\ Tag saslCreds = 3
    /\ Children saslCreds
       = [Some {| ClassType := ClassUniversal; TagType := TypePrimitive;
                  Tag := TagOctetString; Value := VString mechanism;
                  Data := list_byte_of_string mechanism; Children := [];
                  Description := "Mechanism" |};
          Some {| ClassType := ClassUniversal; TagType := TypePrimitive;
                  Tag := TagOctetString;
                  Value := VString (string_of_list_byte credentials);
                  Data := credentials; Children := [];
                  Description := "Credentials" |}].
Proof.
  unfold saslBindEnvelope. eexists _, _.
  split; [reflexivity|]. split; [reflexivity|].
  do 3 (split; [reflexivity|]). split; [reflexivity|].
  do 3 (split; [reflexivity|]).
  cbn. unfold NewString.
  rewrite list_byte_of_string_of_list_byte. reflexivity.
Qed.

(** X15. The request of a SASL/EXTERNAL bind never fails to build and
    adds one child to the envelope, a bind request made of the version
    3, an empty name and SASL credentials with the mechanism "EXTERNAL"
    and empty credentials; it adds no controls. *)
Theorem externalBindRequest_shape `{BerCodec} (envelope : Packet) :
  exists pkt saslAuth : Packet,
    externalBindRequest envelope = (AppendChild envelope pkt, None)
    /\ Children (AppendChild envelope pkt)
       = (Children envelope ++ [Some pkt])%list
    /\ ClassType pkt = ClassApplication
    /\ TagType pkt = TypeConstructed
    /\ Tag pkt = ApplicationBindRequest
    /\ map (fmap Value) (Children pkt)
       = [Some (VInt 3); Some (VString ""); Some (VString "")]
    /\ Children pkt !! 2%nat = Some (Some saslAuth)
    /\ ClassType saslAuth = ClassContext
    /\ TagType saslAuth = TypeConstructed
    /\ Tag saslAuth = 3
    /\ map (fmap (fun p => (ClassType p, Tag p, Value p, Data p)))
         (Children saslAuth)
       = [Some (ClassUniversal, TagOctetString, VString "EXTERNAL",
                list_byte_of_string "EXTERNAL");
          Some (ClassUniversal, TagOctetString, VString "", [])].
Proof.
  unfold externalBindRequest. eexists _, _.
  split; [reflexivity|]. repeat (split; [reflexivity|]). reflexivity.
Qed.

(** X16. Once the request of a simple bind is submitted, every way
    [SimpleBind] returns leaves the connection as the deferred
    [finishMessage] makes it: the message is finished whether the read
    fails, a control fails to decode or the bind is answered. *)
Theorem SimpleBind_always_finishes `{BerCodec} `{Helpers}
    (simpleBindRequest : SimpleBindRequest.t) (l l1 l' : Conn)
    (msgCtx : messageContext) (result : option SimpleBindResult.t)
    (err : option error) :
  (SimpleBindRequest.Password simpleBindRequest = "" ->
   SimpleBindRequest.AllowEmptyPassword simpleBindRequest = true) ->
  doRequest simpleBindRequest l = (Some msgCtx, None, l1) ->
  SimpleBind simpleBindRequest l = Ret (result, err, l') ->
  l' = finishMessage msgCtx l1.
Proof.
  intros Hguard Hdo. unfold SimpleBind.
  rewrite (guard_passes _ Hguard), Hdo.
  destruct (readPacket msgCtx l1) as [packet [e|]].
  { intros Hret.
    assert (Ret (None, Some e, finishMessage msgCtx l1)
            = Ret (result, err, l')) as Heq
      by (destruct packet; exact Hret).
    inversion Heq. reflexivity. }
  destruct packet as [packet|]; [|discriminate].
  destruct (decodeResponseControls packet _) as [[controls|e]|];
    cbn [go_bind]; try discriminate;
    intros Hret; inversion Hret; reflexivity.
Qed.

Lemma SimpleBind_always_finishes_witness :
  exists (l1 l' : Conn),
    l' = finishMessage {| id := 1 |} l1 /\ pending l' = ∅.
Proof.
  pose (l1 := snd (doRequest adminBind refusingConn)).
  exists l1. eexists. split.
  - eapply (SimpleBind_always_finishes adminBind refusingConn l1 _
              {| id := 1 |});
      [discriminate | reflexivity | vm_compute; reflexivity].
  - vm_compute. reflexivity.
Defined.

(** X17. [UnauthenticatedBind] is not stopped by the empty password:
    once its request is submitted and the response read and decoded, its
    outcome is the validation of the response, for any user name. *)
Theorem UnauthenticatedBind_passes_guard `{BerCodec} `{Helpers}
    (username : string) (l l1 : Conn) (msgCtx : messageContext)
    (packet : Packet) (controls : list Control) :
  let req := {| SimpleBindRequest.Username := username;
                SimpleBindRequest.Password := "";
                SimpleBindRequest.Controls := [];
                SimpleBindRequest.AllowEmptyPassword := true |} in
  doRequest req l = (Some msgCtx, None, l1) ->
  readPacket msgCtx l1 = (Some packet, None) ->
  decodeResponseControls packet [] = Ret (inl controls) ->
  UnauthenticatedBind username l
  = Ret (GetLDAPError (Some packet), finishMessage msgCtx l1).
Proof.
  intros req Hdo Hread Hdec. unfold UnauthenticatedBind. fold req.
  rewrite (SimpleBind_on_response req l l1 msgCtx packet
             (fun _ => eq_refl) Hdo Hread).
  rewrite Hdec. reflexivity.
Qed.

Lemma UnauthenticatedBind_passes_guard_witness :
  exists l' : Conn,
    UnauthenticatedBind "cn=admin,dc=example,dc=com" acceptingConn
    = Ret (None, l').
Proof.
  pose (ctx := {| id := 1 |}).
  pose (l1 := snd (doRequest unauthenticatedBind acceptingConn)).
  exists (finishMessage ctx l1).
  apply (UnauthenticatedBind_passes_guard "cn=admin,dc=example,dc=com"
           acceptingConn l1 ctx (stubResponse 1 0 "" [] []) []);
    reflexivity.
Defined.

(** Two edge inputs, run: a search answered with a single nil entry
    makes [RootDSE] return nil without an error, and a fourth child
    without content makes [SASLBind] return a nil token. *)
Lemma RootDSE_nil_entry_example :
  exists conn' : Conn, RootDSE [] nilEntryConn = Ret (None, None, conn').
Proof. eexists. vm_compute. reflexivity. Qed.

Lemma SASLBind_empty_token_example :
  tokenOf [Some emptyToken] = None
  /\ exists l' : Conn,
       SASLBind "PLAIN" [] emptyTokenConn = Ret (None, None, l').
Proof. split; [reflexivity|]. eexists. vm_compute. reflexivity. Qed.
